(** * Skill scaffolding (init_skill.py) and the validate/package pipeline

  A shallow embedding of [.codex/skills/skill-creator/scripts/init_skill.py]
  together with a model of the validator and the packager that the
  specification describes.

  Conventions of the model.
  - A Python [str] is a [string]; its characters are the code points below
    256 ([ascii]), and case mapping is that of ASCII.  Every character the
    name check lets through is ASCII.
  - A [pathlib.Path] is kept the way pathlib keeps it: an anchor and the
    list of its components, joined and rendered lexically.
  - The file system is a finite map from resolved keys (the list of
    directory entries from the root) to nodes.  Path resolution walks the
    components as the kernel does, [..] included; there are no symbolic
    links, every access is permitted, and any string without [/] can name
    an entry.
  - Effects are threaded through a small state-and-exception monad whose
    outcomes are a normal return, [sys.exit] with a code, or a raised
    Python exception. *)

From Stdlib Require Import Ascii String NArith ZArith Bool Lia.
From stdpp Require Import base tactics option list strings gmap fin_maps.

Set Default Proof Using "Type".

(* ===================================================================== *)
(** * Characters and strings *)
(* ===================================================================== *)

Module Str.

Definition code (c : ascii) : N := N_of_ascii c.

Definition between (lo hi : N) (c : ascii) : bool :=
  ((lo <=? code c) && (code c <=? hi))%N.

Definition is_lower (c : ascii) : bool := between 97 122 c.
Definition is_upper (c : ascii) : bool := between 65 90 c.
Definition is_digit (c : ascii) : bool := between 48 57 c.

(** [str.upper] / [str.lower] on one ASCII character. *)
Definition upper (c : ascii) : ascii :=
  if is_lower c then ascii_of_N (code c - 32) else c.
Definition lower (c : ascii) : ascii :=
  if is_upper c then ascii_of_N (code c + 32) else c.

(** A cased character: one that has an upper and a lower form. *)
Definition is_cased (c : ascii) : bool := is_lower c || is_upper c.

(** The characters [str.strip()] removes: space, tab, newline, carriage
    return, vertical tab and form feed. *)
Definition is_space (c : ascii) : bool :=
  (code c =? 32)%N || between 9 13 c.

Definition nl : ascii := "010"%char.
Definition dquote : ascii := "034"%char.

Fixpoint all (p : ascii -> bool) (s : string) : bool :=
  match s with
  | EmptyString => true
  | String c r => p c && all p r
  end.

Fixpoint mem (c : ascii) (s : string) : bool :=
  match s with
  | EmptyString => false
  | String d r => Ascii.eqb c d || mem c r
  end.

(** [s.replace(old, new)] for one-character [old] and [new]. *)
Fixpoint replace (old new : ascii) (s : string) : string :=
  match s with
  | EmptyString => EmptyString
  | String c r =>
      String (if Ascii.eqb c old then new else c) (replace old new r)
  end.

(** [s.title()]: a character that follows a cased character is lowered,
    any other is raised; the flag follows the original character. *)
Fixpoint title_from (previous_is_cased : bool) (s : string) : string :=
  match s with
  | EmptyString => EmptyString
  | String c r =>
      String (if previous_is_cased then lower c else upper c)
             (title_from (is_cased c) r)
  end.

Definition title (s : string) : string := title_from false s.

(** [s.lstrip()], [s.rstrip()] and [s.strip()]. *)
Fixpoint lstrip (s : string) : string :=
  match s with
  | EmptyString => EmptyString
  | String c r => if is_space c then lstrip r else s
  end.

Fixpoint rstrip (s : string) : string :=
  match s with
  | EmptyString => EmptyString
  | String c r =>
      match rstrip r with
      | EmptyString => if is_space c then EmptyString else String c EmptyString
      | r' => String c r'
      end
  end.

Definition strip (s : string) : string := rstrip (lstrip s).

(** [s.split("\n")]: the lines of a text; a text that ends in a newline
    has an empty last line. *)
Fixpoint lines (s : string) : list string :=
  match s with
  | EmptyString => [EmptyString]
  | String c r =>
      if Ascii.eqb c nl then EmptyString :: lines r
      else match lines r with
           | l :: ls => String c l :: ls
           | [] => [String c EmptyString]
           end
  end.

(** ["\n".join(ls)]. *)
Fixpoint unlines (ls : list string) : string :=
  match ls with
  | [] => EmptyString
  | [l] => l
  | l :: ls' => l +:+ String nl (unlines ls')
  end.

Fixpoint starts_with (p s : string) : bool :=
  match p, s with
  | EmptyString, _ => true
  | String a p', String b s' => Ascii.eqb a b && starts_with p' s'
  | String _ _, EmptyString => false
  end.

Fixpoint drop (n : nat) (s : string) : string :=
  match n, s with
  | O, _ => s
  | S n', String _ r => drop n' r
  | S _, EmptyString => EmptyString
  end.

End Str.

(* ===================================================================== *)
(** * The regular expression of the name check *)
(* ===================================================================== *)

Module Re.

(** The fragment of Python's [re] syntax that [init_skill.py] uses. *)
Inductive regex : Type :=
| Bol                                (* ^ *)
| Eol                                (* $ *)
| PlusSet (cls : ascii -> bool)      (* [...]+ *)
| Cat (r1 r2 : regex).

(** Without [re.MULTILINE], [$] matches at the end of the string and
    also just before a newline that is the last character. *)
Definition at_eol (s : string) : bool :=
  match s with
  | EmptyString => true
  | String c EmptyString => Ascii.eqb c Str.nl
  | _ => false
  end.

(** One or more characters of the class, then the continuation; the
    longer repetition is tried first, as the greedy [+] does. *)
Fixpoint plus_set (cls : ascii -> bool) (s : string)
         (k : string -> bool) : bool :=
  match s with
  | EmptyString => false
  | String c r => cls c && (plus_set cls r k || k r)
  end.

(** Backtracking matcher in continuation-passing style.  [start] tells
    whether the current position is the start of the subject. *)
Fixpoint run (r : regex) (start : bool) (s : string)
         (k : bool -> string -> bool) : bool :=
  match r with
  | Bol => start && k start s
  | Eol => at_eol s && k start s
  | PlusSet cls => plus_set cls s (k false)
  | Cat r1 r2 => run r1 start s (fun st s' => run r2 st s' k)
  end.

(** [bool(re.match(r, s))]: the pattern matches a prefix of [s]. *)
Definition matches (r : regex) (s : string) : bool :=
  run r true s (fun _ _ => true).

End Re.

(* ===================================================================== *)
(** * init_skill.py: the name check *)
(* ===================================================================== *)

(** The class [[a-zA-Z0-9_-]]. *)
Definition skill_name_class (c : ascii) : bool :=
  Str.is_lower c || Str.is_upper c || Str.is_digit c
  || Ascii.eqb c "_"%char || Ascii.eqb c "-"%char.

(** The pattern [r'^[a-zA-Z0-9_-]+$']. *)
Definition skill_name_pattern : Re.regex :=
  Re.Cat Re.Bol (Re.Cat (Re.PlusSet skill_name_class) Re.Eol).

Definition validate_skill_name (name : string) : bool :=
  Re.matches skill_name_pattern name.

(** What the specification asks of a name: not empty, and made only of
    ASCII letters, digits, hyphens and underscores. *)
Definition well_formed_name (name : string) : bool :=
  negb (String.eqb name EmptyString) && Str.all skill_name_class name.

(* ===================================================================== *)
(** * pathlib: pure paths *)
(* ===================================================================== *)

(** A [PurePosixPath]: the anchor (empty, ["/"] or ["//"]) and the
    components after it. *)
Record Path : Type := mkPath { anchor : string; parts : list string }.

Module PurePath.

(** [rel.split("/")]. *)
Fixpoint split_sep (s : string) : list string :=
  match s with
  | EmptyString => [EmptyString]
  | String c r =>
      if Ascii.eqb c "/"%char then EmptyString :: split_sep r
      else match split_sep r with
           | l :: ls => String c l :: ls
           | [] => [String c EmptyString]
           end
  end.

(** The root of a path string: exactly two leading slashes are kept,
    one or three and more collapse to a single one. *)
Definition splitroot (s : string) : string :=
  match s with
  | String "/" (String "/" (String "/" _)) => "/"
  | String "/" (String "/" _) => "//"
  | String "/" _ => "/"
  | _ => ""
  end.

(** Empty components and [.] are dropped when a path is parsed. *)
Definition keep_part (x : string) : bool :=
  negb (String.eqb x "") && negb (String.eqb x ".").

Definition parse (s : string) : Path :=
  {| anchor := splitroot s; parts := filter (fun x => keep_part x = true) (split_sep s) |}.

(** [p / s]: an anchored right operand replaces the left one. *)
Definition join (p : Path) (s : string) : Path :=
  let q := parse s in
  if String.eqb (anchor q) "" then
    {| anchor := anchor p; parts := parts p ++ parts q |}
  else q.

(** [p.parent]; a path without components is its own parent. *)
Definition parent (p : Path) : Path :=
  {| anchor := anchor p; parts := removelast (parts p) |}.

(** [sep.join(parts)]. *)
Fixpoint join_sep (l : list string) : string :=
  match l with
  | [] => ""
  | [x] => x
  | x :: r => x +:+ "/" +:+ join_sep r
  end.

(** [str(p)]. *)
Definition to_str (p : Path) : string :=
  match anchor p, parts p with
  | EmptyString, [] => "."
  | a, l => a +:+ join_sep l
  end.

End PurePath.

Notation "p // s" := (PurePath.join p s) (at level 40, left associativity).

(* ===================================================================== *)
(** * The file system and the effects of a script *)
(* ===================================================================== *)

(** A resolved location: the directory entries from the root down. *)
Abbreviation key := (list string).

Inductive node : Type :=
| Dir
| File (content : string).

#[global] Instance node_eq_dec : EqDecision node.
Proof. solve_decision. Defined.

(** The Python exceptions the script can meet. *)
Inductive exn : Type :=
| FileNotFoundError
| NotADirectoryError
| FileExistsError
| IsADirectoryError
| ValueError
| KeyError.

Record world : Type := mkWorld {
  fs : gmap key node;
  cwd : key;
  stdout : list string;
  stderr : list string
}.

Inductive outcome (A : Type) : Type :=
| Return (a : A)
| SysExit (status : Z)
| Raise (e : exn).
Arguments Return {A} a.
Arguments SysExit {A} status.
Arguments Raise {A} e.

Definition prog (A : Type) : Type := world -> outcome A * world.

#[global] Instance prog_ret : MRet prog := fun A a w => (Return a, w).

#[global] Instance prog_bind : MBind prog := fun A B f m w =>
  match m w with
  | (Return a, w') => f a w'
  | (SysExit c, w') => (SysExit c, w')
  | (Raise e, w') => (Raise e, w')
  end.

Definition sys_exit {A} (status : Z) : prog A := fun w => (SysExit status, w).

Definition print (line : string) : prog unit := fun w =>
  (Return tt, {| fs := fs w; cwd := cwd w;
                 stdout := stdout w ++ [line]; stderr := stderr w |}).

Definition print_stderr (line : string) : prog unit := fun w =>
  (Return tt, {| fs := fs w; cwd := cwd w;
                 stdout := stdout w; stderr := stderr w ++ [line] |}).

Definition set_fs (m : gmap key node) (w : world) : world :=
  {| fs := m; cwd := cwd w; stdout := stdout w; stderr := stderr w |}.

Module Fs.

(** The root always exists and is a directory. *)
Definition get (m : gmap key node) (k : key) : option node :=
  match k with
  | [] => Some Dir
  | _ => m !! k
  end.

(** One step of path resolution from directory [cur]. *)
Definition step (cur : key) (c : string) : key :=
  if String.eqb c ".." then removelast cur else cur ++ [c].

(** Walk the components: each one is looked up in a location that must
    exist and be a directory; the location reached last may be absent. *)
Fixpoint walk (m : gmap key node) (cur : key) (segs : list string)
  : exn + key :=
  match segs with
  | [] => inr cur
  | c :: rest =>
      match get m cur with
      | None => inl FileNotFoundError
      | Some (File _) => inl NotADirectoryError
      | Some Dir => walk m (step cur c) rest
      end
  end.

(** Where resolution starts: the working directory for a relative path,
    the root for an anchored one. *)
Definition origin (w : world) (a : string) : key :=
  if String.eqb a "" then cwd w else [].

Definition start (w : world) (p : Path) : key := origin w (anchor p).

Definition resolve (w : world) (p : Path) : exn + key :=
  walk (fs w) (start w p) (parts p).

(** [p.exists()]: a path that does not resolve does not exist. *)
Definition path_exists (p : Path) : prog bool := fun w =>
  match resolve w p with
  | inr k =>
      match get (fs w) k with
      | Some _ => (Return true, w)
      | None => (Return false, w)
      end
  | inl _ => (Return false, w)
  end.

(** [p.is_dir()]. *)
Definition is_dir (p : Path) : prog bool := fun w =>
  match resolve w p with
  | inr k =>
      match get (fs w) k with
      | Some Dir => (Return true, w)
      | _ => (Return false, w)
      end
  | inl _ => (Return false, w)
  end.

(** [os.mkdir(p)]. *)
Definition os_mkdir (p : Path) : prog unit := fun w =>
  match resolve w p with
  | inl e => (Raise e, w)
  | inr k =>
      match get (fs w) k with
      | Some _ => (Raise FileExistsError, w)
      | None => (Return tt, set_fs (<[k := Dir]> (fs w)) w)
      end
  end.

(** [p.mkdir(parents=False, exist_ok=exist_ok)]: an error other than a
    missing parent is forgiven when [exist_ok] holds and [p] is a
    directory. *)
Definition mkdir_plain (p : Path) (exist_ok : bool) : prog unit := fun w =>
  match os_mkdir p w with
  | (Raise FileNotFoundError, _) => (Raise FileNotFoundError, w)
  | (Raise e, _) =>
      match is_dir p w with
      | (Return true, _) => if exist_ok then (Return tt, w) else (Raise e, w)
      | _ => (Raise e, w)
      end
  | r => r
  end.

(** [p.mkdir(parents=True, exist_ok=exist_ok)] for the path whose
    components are [rev rparts]: when a parent is missing the parents are
    made first (with [exist_ok=True]) and the directory is made again
    without [parents]. *)
Fixpoint mkdir_parents_rev (a : string) (rparts : list string)
         (exist_ok : bool) : prog unit := fun w =>
  let self := {| anchor := a; parts := rev rparts |} in
  match os_mkdir self w with
  | (Raise FileNotFoundError, _) =>
      match rparts with
      | [] => (Raise FileNotFoundError, w)
      | _ :: rparent =>
          match mkdir_parents_rev a rparent true w with
          | (Return _, w1) => mkdir_plain self exist_ok w1
          | r => r
          end
      end
  | (Raise e, _) =>
      match is_dir self w with
      | (Return true, _) => if exist_ok then (Return tt, w) else (Raise e, w)
      | _ => (Raise e, w)
      end
  | r => r
  end.

(** [p.mkdir(parents=parents, exist_ok=exist_ok)]. *)
Definition mkdir (p : Path) (parents exist_ok : bool) : prog unit :=
  if parents then mkdir_parents_rev (anchor p) (rev (parts p)) exist_ok
  else mkdir_plain p exist_ok.

(** [p.write_text(data)]: open for writing, creating or truncating. *)
Definition write_text (p : Path) (data : string) : prog unit := fun w =>
  match resolve w p with
  | inl e => (Raise e, w)
  | inr k =>
      match get (fs w) k with
      | Some Dir => (Raise IsADirectoryError, w)
      | _ => (Return tt, set_fs (<[k := File data]> (fs w)) w)
      end
  end.

(** [p.touch()]: an existing entry only has its times bumped; a missing
    one is created empty. *)
Definition touch (p : Path) : prog unit := fun w =>
  match resolve w p with
  | inl e => (Raise e, w)
  | inr k =>
      match get (fs w) k with
      | Some _ => (Return tt, w)
      | None => (Return tt, set_fs (<[k := File ""]> (fs w)) w)
      end
  end.

End Fs.

(* ===================================================================== *)
(** * str.format with keyword arguments *)
(* ===================================================================== *)

Module Format.

Fixpoint lookup_kw (kw : list (string * string)) (name : string)
  : option string :=
  match kw with
  | [] => None
  | (k, v) :: rest => if String.eqb k name then Some v else lookup_kw rest name
  end.

Definition cons_ok (c : ascii) (r : exn + string) : exn + string :=
  match r with
  | inr s => inr (String c s)
  | inl e => inl e
  end.

Definition app_ok (v : string) (r : exn + string) : exn + string :=
  match r with
  | inr s => inr (v +:+ s)
  | inl e => inl e
  end.

(** The scanner of [template.format] with keyword arguments [kw].  [field] is [None] in literal
    text and holds the name read so far inside a replacement field.
    Doubled braces are literal braces; a lone closing brace, a field that
    is not closed and a brace inside a field name are [ValueError]; a name
    that is not a keyword is [KeyError].  Fields are plain names, without
    conversion or format specification, as in the templates below. *)
Fixpoint scan (kw : list (string * string)) (field : option string)
         (s : string) : exn + string :=
  match field, s with
  | None, EmptyString => inr EmptyString
  | None, String "{" (String "{" r) => cons_ok "{" (scan kw None r)
  | None, String "}" (String "}" r) => cons_ok "}" (scan kw None r)
  | None, String "{" r => scan kw (Some EmptyString) r
  | None, String "}" _ => inl ValueError
  | None, String c r => cons_ok c (scan kw None r)
  | Some _, EmptyString => inl ValueError
  | Some _, String "{" _ => inl ValueError
  | Some name, String "}" r =>
      match lookup_kw kw name with
      | Some v => app_ok v (scan kw None r)
      | None => inl KeyError
      end
  | Some name, String c r => scan kw (Some (name +:+ String c EmptyString)) r
  end.

Definition format (template : string) (kw : list (string * string))
  : prog string := fun w =>
  match scan kw None template with
  | inr s => (Return s, w)
  | inl e => (Raise e, w)
  end.

End Format.

(* ===================================================================== *)
(** * init_skill.py: templates and scaffolding *)
(* ===================================================================== *)

Definition dq : string := String Str.dquote EmptyString.

Definition SKILL_MD_TEMPLATE : string :=
"---
name: {skill_name}
description: [Describe what this skill does and when to use it - minimum 50 characters]
---

# {skill_title}

## Overview

[Describe the skill's purpose and capabilities]

## Usage

[Explain how to use this skill with examples]

## Resources

- `scripts/` - Executable scripts for deterministic tasks
- `references/` - Documentation loaded as needed
- `assets/` - Templates and files used in output
".

Definition EXAMPLE_SCRIPT : string :=
"#!/usr/bin/env python3
" +:+ dq +:+ dq +:+ dq +:+ "Example script for {skill_name}." +:+ dq +:+ dq +:+ dq +:+ "

def main():
    " +:+ dq +:+ dq +:+ dq +:+ "Main entry point." +:+ dq +:+ dq +:+ dq +:+ "
    print(" +:+ dq +:+ "Hello from {skill_name}!" +:+ dq +:+ ")

if __name__ == " +:+ dq +:+ "__main__" +:+ dq +:+ ":
    main()
".

Definition EXAMPLE_REFERENCE : string :=
"# Reference Document

This is an example reference document for {skill_name}.

## Contents

Add domain knowledge, guidelines, or documentation here that Codex
can load as needed during skill execution.
".

(** [skill_name.replace("-", " ").replace("_", " ").title()]. *)
Definition skill_title_of (skill_name : string) : string :=
  Str.title (Str.replace "_" " " (Str.replace "-" " " skill_name)).

Definition create_skill_directory (skill_name : string) (output_path : Path)
  : prog unit :=
  let skill_dir := output_path // skill_name in
  present ← Fs.path_exists skill_dir;
  if (present : bool) then
    print_stderr ("Error: Directory '" +:+ PurePath.to_str skill_dir
                  +:+ "' already exists.");;
    sys_exit 1
  else
    (* Create directories *)
    Fs.mkdir (skill_dir // "scripts") true false;;
    Fs.mkdir (skill_dir // "references") true false;;
    Fs.mkdir (skill_dir // "assets") true false;;
    (* Create template files *)
    let skill_title := skill_title_of skill_name in
    text ← Format.format SKILL_MD_TEMPLATE
             [("skill_name", skill_name); ("skill_title", skill_title)];
    Fs.write_text (skill_dir // "SKILL.md") text;;
    text ← Format.format EXAMPLE_SCRIPT [("skill_name", skill_name)];
    Fs.write_text (skill_dir // "scripts" // "example.py") text;;
    text ← Format.format EXAMPLE_REFERENCE [("skill_name", skill_name)];
    Fs.write_text (skill_dir // "references" // "example.md") text;;
    (* Create empty .gitkeep in assets *)
    Fs.touch (skill_dir // "assets" // ".gitkeep");;
    print ("Created skill directory: " +:+ PurePath.to_str skill_dir);;
    print "";;
    print "Next steps:";;
    print ("  1. Edit " +:+ PurePath.to_str skill_dir
           +:+ "/SKILL.md with your skill content");;
    print ("  2. Add scripts to " +:+ PurePath.to_str skill_dir +:+ "/scripts/");;
    print ("  3. Add references to " +:+ PurePath.to_str skill_dir
           +:+ "/references/");;
    print "  4. Delete unused example files";;
    print ("  5. Package with: python scripts/package_skill.py "
           +:+ PurePath.to_str skill_dir).

(** The body of [main] once [argparse] has produced [args.skill_name] and
    [args.path]. *)
Definition main (skill_name : string) (path : Path) : prog unit :=
  if negb (validate_skill_name skill_name) then
    print_stderr ("Error: Invalid skill name '" +:+ skill_name +:+ "'. "
                  +:+ "Use only alphanumeric characters, hyphens, and underscores.");;
    sys_exit 1
  else
    create_skill_directory skill_name path.

(* ===================================================================== *)
(** * The validator and the packager *)
(* ===================================================================== *)

(** Two more file-system primitives, used by the packager only. *)
Module FsExtra.

(** [p.read_text()] when [p] is a regular file. *)
Definition read_file (w : world) (p : Path) : option string :=
  match Fs.resolve w p with
  | inr k =>
      match Fs.get (fs w) k with
      | Some (File content) => Some content
      | _ => None
      end
  | inl _ => None
  end.

Definition exists_at (w : world) (p : Path) : bool :=
  match Fs.resolve w p with
  | inr k => match Fs.get (fs w) k with Some _ => true | None => false end
  | inl _ => false
  end.

(** [os.rename(src, dst)] of a regular file onto a path that is not a
    directory: the file moves and replaces what was at [dst]. *)
Definition rename (src dst : Path) : prog unit := fun w =>
  match Fs.resolve w src, Fs.resolve w dst with
  | inr ks, inr kd =>
      match Fs.get (fs w) ks, Fs.get (fs w) kd with
      | Some (File content), Some Dir => (Raise IsADirectoryError, w)
      | Some (File content), _ =>
          (Return tt, set_fs (<[kd := File content]> (delete ks (fs w))) w)
      | Some Dir, _ => (Raise IsADirectoryError, w)
      | None, _ => (Raise FileNotFoundError, w)
      end
  | inl e, _ => (Raise e, w)
  | _, inl e => (Raise e, w)
  end.

(** The entries at and below [root], each with its path relative to
    [root]. *)
Definition subtree (m : gmap key node) (root : key) : list (key * node) :=
  omap (fun kv : key * node =>
          if bool_decide (root `prefix_of` kv.1)
          then Some (drop (length root) kv.1, kv.2) else None)
       (map_to_list m).

End FsExtra.

(** One failed rule.  The specification leaves the wording of a violation
    open; a violation is kept as the rule that failed and the figures the
    message reports. *)
Inductive violation : Type :=
| ManifestMissing
| FrontmatterMissing
| NameMissing
| DescriptionMissing
| DescriptionTooShort (actual required : nat)
| DescriptionPlaceholder
| BodyTooShort (actual required : nat)
| ForbiddenFile (name : string).

Record ValidationResult : Type := mkResult {
  isValid : bool;
  violations : list violation
}.

Record Manifest : Type := mkManifest {
  frontmatter : list string;
  body : string
}.

Module Validator.

Definition MANIFEST_NAME : string := "SKILL.md".
Definition FENCE : string := "---".
Definition MIN_DESCRIPTION_LENGTH : nat := 50.
Definition MIN_BODY_LENGTH : nat := 100.
Definition FORBIDDEN_FILES : list string :=
  ["README.md"; "CHANGELOG.md"; "INSTALLATION_GUIDE.md"].

(** Modelled from the spec: the split of the lines after the opening fence
    at the first line that holds only the fence marker (the validator is
    code of the repository that is not among the sources; section 4.1,
    rule 2). *)
Fixpoint until_fence (ls : list string) : option (list string * list string) :=
  match ls with
  | [] => None
  | l :: rest =>
      if String.eqb l FENCE then Some ([], rest)
      else match until_fence rest with
           | Some (fm, after) => Some (l :: fm, after)
           | None => None
           end
  end.

(** Modelled from the spec: the manifest of a document (section 3 and
    section 4.1, rule 2): the content begins with a line that holds only
    the fence marker, any number of lines follow, another such line ends
    the block, and the body is all the text after it. *)
Definition parse_manifest (content : string) : option Manifest :=
  match Str.lines content with
  | first :: rest =>
      if String.eqb first FENCE then
        match until_fence rest with
        | Some (fm, after) =>
            Some {| frontmatter := fm; body := Str.unlines after |}
        | None => None
        end
      else None
  | [] => None
  end.

(** Modelled from the spec: the value of the first frontmatter line that
    starts with [field:] (section 4.1, rules 3 and 4). *)
Fixpoint find_field (field : string) (fm : list string) : option string :=
  match fm with
  | [] => None
  | l :: rest =>
      if Str.starts_with (field +:+ ":") l
      then Some (Str.drop (String.length field + 1) l)
      else find_field field rest
  end.

(** Modelled from the spec: rule 3, a [name:] line followed by at least
    one character that is not white space. *)
Definition check_name (fm : list string) : list violation :=
  match find_field "name" fm with
  | Some v => if String.eqb (Str.strip v) "" then [NameMissing] else []
  | None => [NameMissing]
  end.

(** Modelled from the spec: the description of a manifest, present when a
    [description:] line is followed by text. *)
Definition description_of (fm : list string) : option string :=
  match find_field "description" fm with
  | Some v => if String.eqb v "" then None else Some v
  | None => None
  end.

Definition has_placeholder (d : string) : bool :=
  Str.mem "[" (Str.strip d) && Str.mem "]" (Str.strip d).

(** Modelled from the spec: rule 4.  A missing description is one
    violation and skips both checks on its value; on a description that is
    present the length check and the placeholder check each stand alone. *)
Definition check_description (fm : list string) : list violation :=
  match description_of fm with
  | None => [DescriptionMissing]
  | Some d =>
      (if String.length (Str.strip d) <? MIN_DESCRIPTION_LENGTH
       then [DescriptionTooShort (String.length (Str.strip d))
                                 MIN_DESCRIPTION_LENGTH]
       else [])
      ++ (if has_placeholder d then [DescriptionPlaceholder] else [])
  end.

(** Modelled from the spec: rule 5. *)
Definition check_body (b : string) : list violation :=
  if String.length (Str.strip b) <? MIN_BODY_LENGTH
  then [BodyTooShort (String.length (Str.strip b)) MIN_BODY_LENGTH]
  else [].

(** Modelled from the spec: rule 6, one violation for each file of the
    denylist found directly inside the directory. *)
Definition check_forbidden (w : world) (skill_dir : Path) : list violation :=
  flat_map (fun f => if FsExtra.exists_at w (skill_dir // f)
                     then [ForbiddenFile f] else [])
           FORBIDDEN_FILES.

(** Modelled from the spec: the content rules, which all run and whose
    violations are collected in the order of the rules. *)
Definition content_rules (w : world) (skill_dir : Path) (m : Manifest)
  : list violation :=
  check_name (frontmatter m) ++ check_description (frontmatter m)
  ++ check_body (body m) ++ check_forbidden w skill_dir.

Definition result_of (vs : list violation) : ValidationResult :=
  {| isValid := match vs with [] => true | _ => false end; violations := vs |}.

(** Modelled from the spec: [validate(skillDirectory)] (section 4.1).  The
    two structural rules stop the evaluation with their own violation. *)
Definition validate (w : world) (skill_dir : Path) : ValidationResult :=
  match FsExtra.read_file w (skill_dir // MANIFEST_NAME) with
  | None => result_of [ManifestMissing]
  | Some content =>
      match parse_manifest content with
      | None => result_of [FrontmatterMissing]
      | Some m => result_of (content_rules w skill_dir m)
      end
  end.

End Validator.

Section Packager.

(** The wording of a violation and the archive format are outside the
    specification: they are parameters of the packager. *)
Variable describe : violation -> string.
Variable compress : string -> list (key * node) -> string.

Definition ARCHIVE_EXTENSION : string := ".zip".
Definition SKILL_EXTENSION : string := ".skill".

Fixpoint report (vs : list violation) : prog unit :=
  match vs with
  | [] => mret tt
  | v :: rest => print ("Validation error: " +:+ describe v);; report rest
  end.

(** Modelled from the spec: [package(skillDirectory, outputDirectory)]
    (section 4.2; the packager is code of the repository that is not among
    the sources).  An invalid directory is reported and nothing is written;
    a valid one is archived under the generic extension and the archive is
    renamed to its final name. *)
Definition package (skill_dir output_dir : Path) : prog Path := fun w =>
  let result := Validator.validate w skill_dir in
  if isValid result then
    (Fs.mkdir output_dir true true;;
     let skill_name := List.last (parts skill_dir) "" in
     let archive := output_dir // (skill_name +:+ ARCHIVE_EXTENSION) in
     let target := output_dir // (skill_name +:+ SKILL_EXTENSION) in
     (fun w1 =>
        match Fs.resolve w1 skill_dir with
        | inr k =>
            Fs.write_text archive
              (compress skill_name (FsExtra.subtree (fs w1) k)) w1
        | inl e => (Raise e, w1)
        end);;
     FsExtra.rename archive target;;
     mret target) w
  else
    (report (violations result);; sys_exit 1) w.

End Packager.

(* ===================================================================== *)
(** * Notions used in the statements *)
(* ===================================================================== *)

(** A name that pathlib parses as one relative component, and that the
    kernel resolves as an entry of that name. *)
Definition plain_name (n : string) : Prop :=
  PurePath.parse n = {| anchor := ""; parts := [n] |} /\ n <> "..".

(** Every entry of a well-formed file system lies in a directory. *)
Definition fs_wf (m : gmap key node) : Prop :=
  forall k c, is_Some (m !! (k ++ [c])) -> Fs.get m k = Some Dir.

(** [m'] keeps the directories of [m]. *)
Definition dir_mono (m m' : gmap key node) : Prop :=
  forall k, Fs.get m k = Some Dir -> Fs.get m' k = Some Dir.

(** The text of each scaffolded file, the placeholders filled in. *)
Definition DESCRIPTION_PLACEHOLDER : string :=
  "[Describe what this skill does and when to use it - minimum 50 characters]".

(** The text after the closing fence of the scaffolded manifest. *)
Definition skill_body_text (skill_name : string) : string :=
  "
# " +:+ skill_title_of skill_name +:+ "

## Overview

[Describe the skill's purpose and capabilities]

## Usage

[Explain how to use this skill with examples]

## Resources

- `scripts/` - Executable scripts for deterministic tasks
- `references/` - Documentation loaded as needed
- `assets/` - Templates and files used in output
".

Definition skill_md_text (skill_name : string) : string :=
  "---
name: " +:+ skill_name +:+ "
description: " +:+ DESCRIPTION_PLACEHOLDER +:+ "
---
" +:+ skill_body_text skill_name.

Definition example_script_text (skill_name : string) : string :=
  "#!/usr/bin/env python3
" +:+ dq +:+ dq +:+ dq +:+ "Example script for " +:+ skill_name +:+ "."
  +:+ dq +:+ dq +:+ dq +:+ "

def main():
    " +:+ dq +:+ dq +:+ dq +:+ "Main entry point." +:+ dq +:+ dq +:+ dq +:+ "
    print(" +:+ dq +:+ "Hello from " +:+ skill_name +:+ "!" +:+ dq +:+ ")

if __name__ == " +:+ dq +:+ "__main__" +:+ dq +:+ ":
    main()
".

Definition example_reference_text (skill_name : string) : string :=
  "# Reference Document

This is an example reference document for " +:+ skill_name +:+ ".

## Contents

Add domain knowledge, guidelines, or documentation here that Codex
can load as needed during skill execution.
".

(** The scaffolded tree, by path relative to the skill directory. *)
Definition skill_files (skill_name : string) : list (key * node) :=
  [ ([], Dir);
    (["scripts"], Dir);
    (["references"], Dir);
    (["assets"], Dir);
    (["SKILL.md"], File (skill_md_text skill_name));
    (["scripts"; "example.py"], File (example_script_text skill_name));
    (["references"; "example.md"], File (example_reference_text skill_name));
    (["assets"; ".gitkeep"], File "") ].

Definition skill_tree (skill_name : string) : gmap key node :=
  list_to_map (skill_files skill_name).

(** The file system after a scaffolding into the directory at [k]: the
    entries of the tree are added below [k] in the order the script makes
    them. *)
Definition scaffolded (skill_name : string) (k : key) (m : gmap key node)
  : gmap key node :=
  foldl (fun acc (kv : key * node) => <[k ++ kv.1 := kv.2]> acc) m
        (skill_files skill_name).

(** What the script prints after a successful scaffolding. *)
Definition next_steps (skill_dir : Path) : list string :=
  [ "Created skill directory: " +:+ PurePath.to_str skill_dir;
    "";
    "Next steps:";
    "  1. Edit " +:+ PurePath.to_str skill_dir
      +:+ "/SKILL.md with your skill content";
    "  2. Add scripts to " +:+ PurePath.to_str skill_dir +:+ "/scripts/";
    "  3. Add references to " +:+ PurePath.to_str skill_dir +:+ "/references/";
    "  4. Delete unused example files";
    "  5. Package with: python scripts/package_skill.py "
      +:+ PurePath.to_str skill_dir ].

(** [w1] is [w] with the same working directory and at least the same
    directories. *)
Definition grows (w w1 : world) : Prop :=
  cwd w1 = cwd w /\ dir_mono (fs w) (fs w1).

(** The shape C3 asks of a manifest: the fence on the first line, then
    the [name:] line with the skill name as its value, the [description:]
    line, the closing fence, and a body that is not empty. *)
Definition manifest_shape (content skill_name : string) : Prop :=
  exists description body_lines,
    Str.lines content
    = "---" :: ("name: " +:+ skill_name) :: ("description: " +:+ description)
      :: "---" :: body_lines /\
    Str.unlines body_lines <> "".

(** What a scaffolding run that returned leaves at [k], the location of
    the skill directory. *)
Definition skill_directory_at (skill_name : string) (m : gmap key node)
           (k : key) : Prop :=
  Fs.get m k = Some Dir /\
  Fs.get m (k ++ ["scripts"]) = Some Dir /\
  Fs.get m (k ++ ["references"]) = Some Dir /\
  Fs.get m (k ++ ["assets"]) = Some Dir /\
  Fs.get m (k ++ ["SKILL.md"]) = Some (File (skill_md_text skill_name)) /\
  Fs.get m (k ++ ["scripts"; "example.py"])
  = Some (File (example_script_text skill_name)) /\
  Fs.get m (k ++ ["references"; "example.md"])
  = Some (File (example_reference_text skill_name)) /\
  is_Some (Fs.get m (k ++ ["assets"; ".gitkeep"])).

(** A list of path components without [..]. *)
Definition no_dotdot (l : list string) : Prop := ".." ∉ l.

(** From [w] to [w1] the only changes are new directories, at locations
    that satisfy [P]. *)
Definition adds_dirs (w w1 : world) (P : key -> Prop) : Prop :=
  forall k, Fs.get (fs w1) k <> Fs.get (fs w) k ->
            Fs.get (fs w) k = None /\ Fs.get (fs w1) k = Some Dir /\ P k.

(** An output path that is an existing directory, or one that is written
    without [..]. *)
Definition usual_output_path (w : world) (output_path : Path) : Prop :=
  no_dotdot (parts output_path) \/
  exists k, Fs.resolve w output_path = inr k /\ Fs.get (fs w) k = Some Dir.

(** The steps of a scaffolding run that returns, with the worlds between
    them. *)
Definition scaffold_steps (skill_name : string) (output_path : Path)
           (w w' : world) : Prop :=
  let skill_dir := output_path // skill_name in
  exists w1 w2 w3 w4 w5 w6 w7,
    Fs.path_exists skill_dir w = (Return false, w) /\
    Fs.mkdir (skill_dir // "scripts") true false w = (Return tt, w1) /\
    Fs.mkdir (skill_dir // "references") true false w1 = (Return tt, w2) /\
    Fs.mkdir (skill_dir // "assets") true false w2 = (Return tt, w3) /\
    Fs.write_text (skill_dir // "SKILL.md") (skill_md_text skill_name) w3
    = (Return tt, w4) /\
    Fs.write_text (skill_dir // "scripts" // "example.py")
                  (example_script_text skill_name) w4
    = (Return tt, w5) /\
    Fs.write_text (skill_dir // "references" // "example.md")
                  (example_reference_text skill_name) w5
    = (Return tt, w6) /\
    Fs.touch (skill_dir // "assets" // ".gitkeep") w6 = (Return tt, w7) /\
    fs w' = fs w7 /\ cwd w' = cwd w7.

(** The file system [m'] is [m3] with the three template files written
    below [k] and [assets/.gitkeep] made, or left alone where something
    was already there. *)
Definition files_added (skill_name : string) (k : key)
           (m3 m' : gmap key node) : Prop :=
  let m6 :=
    <[k ++ ["references"; "example.md"] :=
        File (example_reference_text skill_name)]>
      (<[k ++ ["scripts"; "example.py"] :=
           File (example_script_text skill_name)]>
         (<[k ++ ["SKILL.md"] := File (skill_md_text skill_name)]> m3)) in
  (m' = m6 /\ is_Some (Fs.get m6 (k ++ ["assets"; ".gitkeep"]))) \/
  m' = <[k ++ ["assets"; ".gitkeep"] := File ""]> m6.

(** The course of a scaffolding run that returned: no target at first,
    three [mkdir] calls that lead to [w3], where the skill directory and
    its subdirectories stand at [k], then the files. *)
Definition scaffold_detail (skill_name : string) (output_path : Path)
           (w w' : world) (k : key) (w1 w2 w3 : world) : Prop :=
  let skill_dir := output_path // skill_name in
  Fs.path_exists skill_dir w = (Return false, w) /\
  Fs.mkdir (skill_dir // "scripts") true false w = (Return tt, w1) /\
  Fs.mkdir (skill_dir // "references") true false w1 = (Return tt, w2) /\
  Fs.mkdir (skill_dir // "assets") true false w2 = (Return tt, w3) /\
  Fs.resolve w3 skill_dir = inr k /\
  Fs.get (fs w3) k = Some Dir /\
  Fs.get (fs w3) (k ++ ["scripts"]) = Some Dir /\
  Fs.get (fs w3) (k ++ ["references"]) = Some Dir /\
  Fs.get (fs w3) (k ++ ["assets"]) = Some Dir /\
  files_added skill_name k (fs w3) (fs w') /\
  grows w3 w'.

(** A check of [fs_wf] that runs. *)
Definition fs_wf_b (m : gmap key node) : bool :=
  forallb (fun kv : key * node =>
             match kv.1, Fs.get m (removelast kv.1) with
             | [], _ => true
             | _, Some Dir => true
             | _, _ => false
             end)
          (map_to_list m).

(** The claim that a scaffolding run touches nothing outside the skill
    directory: every location whose content differs after a run that
    returned is the location of [output_path / skill_name] or lies below
    it. *)
Definition touches_only_inside (skill_name : string) (output_path : Path)
           (w : world) : Prop :=
  forall w', create_skill_directory skill_name output_path w = (Return tt, w') ->
  forall k, fs w' !! k <> fs w !! k ->
  exists sk, Fs.resolve w' (output_path // skill_name) = inr sk /\
             sk `prefix_of` k.

(** The claim that two runs with the same name into fresh targets leave
    the same tree: at every relative path the two skill directories hold
    the same entry. *)
Definition same_tree_for_same_name (skill_name : string)
           (output_path1 output_path2 : Path) (w1 w2 : world) : Prop :=
  forall w1' w2' k1 k2,
    create_skill_directory skill_name output_path1 w1 = (Return tt, w1') ->
    create_skill_directory skill_name output_path2 w2 = (Return tt, w2') ->
    Fs.resolve w1' (output_path1 // skill_name) = inr k1 ->
    Fs.resolve w2' (output_path2 // skill_name) = inr k2 ->
    Fs.get (fs w1) k1 = None -> Fs.get (fs w2) k2 = None ->
    forall rel, Fs.get (fs w1') (k1 ++ rel) = Fs.get (fs w2') (k2 ++ rel).

(** Worlds and inputs used as examples. *)
Definition home_world : world :=
  {| fs := {[ ["home"] := Dir ]}; cwd := ["home"]; stdout := []; stderr := [] |}.

Definition here : Path := PurePath.parse ".".

Definition server_world : world :=
  {| fs := {[ ["srv"] := Dir; ["srv"; "skills"] := Dir;
              ["srv"; "notes.txt"] := File "keep" ]};
     cwd := ["srv"]; stdout := ["started"]; stderr := [] |}.

Definition name_with_newline : string := String "a" (String Str.nl "").

(** [home_world] after [demo] has been scaffolded in the working
    directory. *)
Definition demo_world : world :=
  (create_skill_directory "demo" here home_world).2.

Fixpoint replicate_char (n : nat) (c : ascii) : string :=
  match n with
  | O => ""
  | S n' => String c (replicate_char n' c)
  end.

(** A world whose directory [demo] holds a manifest with the given
    description and body. *)
Definition manifest_text (description body : string) : string :=
  "---
name: demo
description: " +:+ description +:+ "
---
" +:+ body.

Definition manifest_world (description body : string) : world :=
  {| fs := {[ ["home"] := Dir;
              ["home"; "demo"] := Dir;
              ["home"; "demo"; "SKILL.md"] :=
                File (manifest_text description body) ]};
     cwd := ["home"]; stdout := []; stderr := [] |}.

Definition demo_dir : Path := PurePath.parse "demo".

(* ===================================================================== *)
(** * Notions used in the further statements *)
(* ===================================================================== *)

(** The exceptions of the operating system, as against [ValueError] and
    [KeyError], which [str.format] raises on a bad template. *)
Definition is_os_error (e : exn) : bool :=
  match e with
  | ValueError | KeyError => false
  | _ => true
  end.

(** An outcome of a file-system primitive: it never exits, and what it
    raises is an error of the operating system. *)
Definition quiet {A} (r : outcome A) : Prop :=
  match r with
  | Return _ => True
  | SysExit _ => False
  | Raise e => is_os_error e = true
  end.

(** Every entry of [m] is still an entry of [m']. *)
Definition keeps_entries (m m' : gmap key node) : Prop :=
  forall k, is_Some (Fs.get m k) -> is_Some (Fs.get m' k).

(** One step on the file system alone: the working directory and the two
    streams are as before, directories stay directories and entries stay
    entries. *)
Definition fs_step (w w1 : world) : Prop :=
  cwd w1 = cwd w /\ stdout w1 = stdout w /\ stderr w1 = stderr w /\
  dir_mono (fs w) (fs w1) /\ keeps_entries (fs w) (fs w1).

(** [w1] comes after [w]: same working directory, directories and entries
    kept, and both streams only longer. *)
Definition extends (w w1 : world) : Prop :=
  cwd w1 = cwd w /\
  dir_mono (fs w) (fs w1) /\ keeps_entries (fs w) (fs w1) /\
  stdout w `prefix_of` stdout w1 /\ stderr w `prefix_of` stderr w1.


(** The line [create_skill_directory] prints before it exits. *)
Definition already_exists_message (skill_dir : Path) : string :=
  "Error: Directory '" +:+ PurePath.to_str skill_dir +:+ "' already exists.".

(** The line [main] prints before it exits on a rejected name. *)
Definition invalid_name_message (skill_name : string) : string :=
  "Error: Invalid skill name '" +:+ skill_name +:+ "'. "
  +:+ "Use only alphanumeric characters, hyphens, and underscores.".

(* ===================================================================== *)
(** * The name check (C1) *)
(* ===================================================================== *)

Lemma append_nil_l (s : string) : "" +:+ s = s.
Proof. reflexivity. Qed.

Lemma append_cons (c : ascii) (s t : string) :
  String c s +:+ t = String c (s +:+ t).
Proof. reflexivity. Qed.

Lemma append_nil_r (s : string) : s +:+ "" = s.
Proof.
  induction s as [|c s IH]; [done |]. by rewrite append_cons, IH.
Qed.

Lemma mem_append (c : ascii) (a b : string) :
  Str.mem c (a +:+ b) = Str.mem c a || Str.mem c b.
Proof.
  induction a as [|x a IH]; [done |].
  rewrite append_cons. simpl. by rewrite IH, orb_assoc.
Qed.

(** A character of a string all of whose characters satisfy [p]
    satisfies [p]. *)
Lemma all_mem_false (p : ascii -> bool) (c : ascii) (s : string) :
  Str.all p s = true -> p c = false -> Str.mem c s = false.
Proof.
  intros Hall Hc. induction s as [|x s IH]; simpl in *; [done |].
  apply andb_true_iff in Hall as [Hx Hs]. rewrite (IH Hs), orb_false_r.
  destruct (Ascii.eqb_spec c x) as [->|]; [congruence | done].
Qed.

(** The greedy repetition succeeds exactly when the subject splits into a
    non-empty run of class characters and a rest the continuation takes. *)
Lemma plus_set_spec (cls : ascii -> bool) (k : string -> bool) (s : string) :
  Re.plus_set cls s k = true <->
  exists a b, s = a +:+ b /\ a <> "" /\ Str.all cls a = true /\ k b = true.
Proof.
  induction s as [|c r IH]; simpl.
  - split; [done |]. intros (a & b & Hs & Ha & _). by destruct a.
  - rewrite andb_true_iff, orb_true_iff, IH. split.
    + intros [Hc [(a & b & -> & Ha & Hall & Hk) | Hk]].
      * exists (String c a), b. simpl. rewrite Hc, Hall. done.
      * exists (String c ""), r. simpl. rewrite Hc. done.
    + intros (a & b & Hs & Ha & Hall & Hk).
      destruct a as [|c' a']; [done |].
      rewrite append_cons in Hs. simpl in Hall.
      injection Hs as <- ->. apply andb_true_iff in Hall as [Hc Hall].
      split; [done |]. destruct a' as [|c'' a''].
      * by right.
      * left. by exists (String c'' a''), b.
Qed.

Lemma at_eol_spec (s : string) :
  Re.at_eol s = true <-> s = "" \/ s = String Str.nl "".
Proof.
  destruct s as [|c [|d r]]; cbn [Re.at_eol].
  - split; auto.
  - destruct (Ascii.eqb_spec c Str.nl) as [->|Hne]; [split; auto |].
    split; [done |]. intros [Heq | Heq]; [done | by injection Heq].
  - split; [done |]. intros [Heq | Heq]; done.
Qed.

Lemma well_formed_name_spec (a : string) :
  well_formed_name a = true <-> a <> "" /\ Str.all skill_name_class a = true.
Proof.
  unfold well_formed_name. rewrite andb_true_iff, negb_true_iff.
  by rewrite String.eqb_neq.
Qed.

(** What the name check accepts: a well-formed name, or a well-formed
    name followed by one newline. *)
Lemma validate_skill_name_spec (name : string) :
  validate_skill_name name = true <->
  exists a, well_formed_name a = true /\
            (name = a \/ name = a +:+ String Str.nl "").
Proof.
  unfold validate_skill_name, Re.matches. simpl.
  rewrite plus_set_spec. split.
  - intros (a & b & -> & Ha & Hall & Hk).
    rewrite andb_true_r in Hk. apply at_eol_spec in Hk.
    exists a. rewrite well_formed_name_spec.
    destruct Hk as [-> | ->]; [rewrite append_nil_r |]; auto.
  - intros (a & [Ha Hall]%well_formed_name_spec & [-> | ->]).
    + exists a, "". by rewrite append_nil_r.
    + by exists a, (String Str.nl "").
Qed.

Lemma well_formed_accepted (name : string) :
  well_formed_name name = true -> validate_skill_name name = true.
Proof. intros H. apply validate_skill_name_spec. eauto. Qed.

(** An accepted name that does not end in a newline is well formed. *)
Lemma accepted_without_newline (name : string) :
  validate_skill_name name = true -> Str.mem Str.nl name = false ->
  well_formed_name name = true.
Proof.
  intros (a & Ha & [-> | ->])%validate_skill_name_spec Hnl; [done |].
  rewrite mem_append in Hnl. simpl in Hnl.
  by rewrite orb_true_r in Hnl.
Qed.

(** C1.  The name check is meant to accept exactly the non-empty strings
    of ASCII letters, digits, hyphens and underscores.  It also accepts
    such a string followed by a newline: ["a\n"] passes the check although
    it holds a character outside the allowed set. *)
Theorem C1_name_check_accepts_trailing_newline :
  validate_skill_name (String "a" (String Str.nl "")) = true /\
  well_formed_name (String "a" (String Str.nl "")) = false /\
  ~ (forall name, validate_skill_name name = true <->
                  well_formed_name name = true).
Proof.
  split; [reflexivity |]. split; [reflexivity |].
  intros H. specialize (H (String "a" (String Str.nl ""))).
  destruct H as [H _]. specialize (H eq_refl). discriminate H.
Qed.


(** The name check, the title and [main] on a few inputs. *)
Example name_check_samples :
  validate_skill_name "my-skill_2" = true /\
  validate_skill_name "A" = true /\
  validate_skill_name "" = false /\
  validate_skill_name "bad name" = false /\
  validate_skill_name "a/b" = false /\
  validate_skill_name ".." = false /\
  validate_skill_name (String Str.nl "") = false /\
  validate_skill_name name_with_newline = true.
Proof. repeat split; reflexivity. Qed.

Example title_samples :
  skill_title_of "my-cool_skill2go" = "My Cool Skill2Go" /\
  skill_title_of "PDF-tools" = "Pdf Tools".
Proof. split; reflexivity. Qed.

Example main_rejects_bad_name :
  main "bad name" here home_world
  = (SysExit 1,
     {| fs := fs home_world; cwd := cwd home_world; stdout := [];
        stderr := ["Error: Invalid skill name 'bad name'. Use only alphanumeric characters, hyphens, and underscores."] |}).
Proof. reflexivity. Qed.

Example main_scaffolds_newline_name :
  (main name_with_newline here home_world).1 = Return tt.
Proof. vm_compute. reflexivity. Qed.

(* ===================================================================== *)
(** * Properties: the lines of a text *)
(* ===================================================================== *)

Lemma lines_not_nil (s : string) : Str.lines s <> [].
Proof.
  induction s as [|c r IH]; [done |]. cbn [Str.lines].
  destruct (Ascii.eqb c Str.nl); [done |]. by destruct (Str.lines r).
Qed.

Lemma lines_append_nl (a b : string) :
  Str.lines (a +:+ String Str.nl b) = Str.lines a ++ Str.lines b.
Proof.
  induction a as [|c a IH]; [done |].
  rewrite append_cons. cbn [Str.lines]. rewrite IH.
  destruct (Ascii.eqb c Str.nl); [done |].
  pose proof (lines_not_nil a). by destruct (Str.lines a).
Qed.

Lemma lines_append_plain (a s : string) :
  Str.mem Str.nl a = false ->
  Str.lines (a +:+ s)
  = match Str.lines s with
    | l :: ls => (a +:+ l) :: ls
    | [] => [a]
    end.
Proof.
  intros Ha. induction a as [|c a IH].
  - rewrite append_nil_l. pose proof (lines_not_nil s). by destruct (Str.lines s).
  - cbn [Str.mem] in Ha. apply orb_false_iff in Ha as [Hc Ha].
    rewrite append_cons. cbn [Str.lines]. rewrite Ascii.eqb_sym, Hc, (IH Ha).
    by destruct (Str.lines s).
Qed.

Lemma lines_plain (s : string) :
  Str.mem Str.nl s = false -> Str.lines s = [s].
Proof.
  intros Hs. rewrite <- (append_nil_r s) at 1.
  rewrite (lines_append_plain _ _ Hs). cbn [Str.lines].
  by rewrite append_nil_r.
Qed.

Lemma unlines_lines (s : string) : Str.unlines (Str.lines s) = s.
Proof.
  induction s as [|c r IH]; [done |]. cbn [Str.lines].
  pose proof (lines_not_nil r) as Hne.
  destruct (Ascii.eqb_spec c Str.nl) as [->|Hc].
  - cbn [Str.unlines]. destruct (Str.lines r) eqn:Hr; [done |].
    by rewrite append_nil_l, IH.
  - destruct (Str.lines r) as [|l [|l' ls]] eqn:Hr; [done | |].
    + cbn [Str.unlines] in *. by rewrite IH.
    + cbn [Str.unlines] in *. by rewrite append_cons, IH.
Qed.

(** No line holds a newline. *)
Lemma lines_no_newline (s l : string) :
  l ∈ Str.lines s -> Str.mem Str.nl l = false.
Proof.
  revert l. induction s as [|c r IH]; intros l.
  - intros ->%list_elem_of_singleton. done.
  - cbn [Str.lines]. destruct (Ascii.eqb_spec c Str.nl) as [->|Hc].
    + intros [-> | Hin]%elem_of_cons; [done | by apply IH].
    + pose proof (lines_not_nil r) as Hne.
      destruct (Str.lines r) as [|l0 ls]; [done |].
      intros [-> | Hin]%elem_of_cons.
      * cbn [Str.mem]. rewrite (IH l0) by (apply elem_of_cons; auto).
        destruct (Ascii.eqb_spec Str.nl c) as [<-|]; done.
      * apply IH. apply elem_of_cons. auto.
Qed.

Lemma class_not_newline : skill_name_class Str.nl = false.
Proof. reflexivity. Qed.

Lemma well_formed_no_newline (a : string) :
  well_formed_name a = true -> Str.mem Str.nl a = false.
Proof.
  intros [_ Hall]%well_formed_name_spec.
  by apply (all_mem_false _ _ _ Hall class_not_newline).
Qed.

(** The lines of an accepted name: the name itself, and an empty line
    after it when the name ends in a newline. *)
Lemma accepted_lines (name : string) :
  validate_skill_name name = true ->
  exists a, well_formed_name a = true /\
            ((name = a /\ Str.lines name = [a]) \/
             (name = a +:+ String Str.nl "" /\ Str.lines name = [a; ""])).
Proof.
  intros (a & Ha & Hn)%validate_skill_name_spec. exists a. split; [done |].
  pose proof (well_formed_no_newline _ Ha) as Hnl.
  destruct Hn as [-> | ->].
  - left. by rewrite lines_plain.
  - right. by rewrite lines_append_nl, lines_plain.
Qed.

(** The lines of the scaffolded manifest. *)
Lemma skill_md_lines (skill_name : string) :
  Str.lines (skill_md_text skill_name)
  = "---" :: Str.lines ("name: " +:+ skill_name)
    ++ ("description: " +:+ DESCRIPTION_PLACEHOLDER) :: "---"
    :: Str.lines (skill_body_text skill_name).
Proof.
  change (skill_md_text skill_name)
    with ("---" +:+ String Str.nl
            (("name: " +:+ skill_name) +:+ String Str.nl
               (("description: " +:+ DESCRIPTION_PLACEHOLDER) +:+ String Str.nl
                  ("---" +:+ String Str.nl (skill_body_text skill_name))))).
  rewrite !lines_append_nl. reflexivity.
Qed.

Lemma skill_body_not_empty (skill_name : string) :
  skill_body_text skill_name <> "".
Proof. done. Qed.

(* ===================================================================== *)
(** * Properties: paths *)
(* ===================================================================== *)

Lemma split_sep_no_sep (n : string) :
  Str.mem "/" n = false -> PurePath.split_sep n = [n].
Proof.
  induction n as [|c r IH]; [done |].
  cbn [Str.mem PurePath.split_sep].
  intros [Hc Hr]%orb_false_iff. rewrite Ascii.eqb_sym, Hc.
  by rewrite (IH Hr).
Qed.

Lemma plain_name_intro (c : ascii) (r : string) :
  Str.mem "/" (String c r) = false -> c <> "."%char ->
  plain_name (String c r).
Proof.
  intros Hsep Hdot. split.
  - unfold PurePath.parse. rewrite (split_sep_no_sep _ Hsep).
    assert (PurePath.splitroot (String c r) = "") as ->.
    { simpl in Hsep. apply orb_false_iff in Hsep as [Hc _].
      unfold PurePath.splitroot.
      destruct (Ascii.eqb_spec "/" c) as [<-|Hne]; [done |].
      destruct c as [[] [] [] [] [] [] [] []]; try done. }
    assert (PurePath.keep_part (String c r) = true) as Hkeep.
    { unfold PurePath.keep_part.
      destruct (String.eqb_spec (String c r) ".") as [[= -> ->]|_]; done. }
    simpl. by rewrite filter_cons_True, filter_nil by done.
  - intros [= -> ->]. done.
Qed.

Lemma class_not_sep : skill_name_class "/" = false.
Proof. reflexivity. Qed.

Lemma class_not_dot : skill_name_class "." = false.
Proof. reflexivity. Qed.

(** A name the check accepts is one plain path component. *)
Lemma accepted_plain (name : string) :
  validate_skill_name name = true -> plain_name name.
Proof.
  intros (a & [Ha Hall]%well_formed_name_spec & Hn)%validate_skill_name_spec.
  destruct a as [|c r]; [done |].
  assert (c <> "."%char) as Hdot.
  { intros ->. cbn [Str.all] in Hall. by rewrite class_not_dot in Hall. }
  pose proof (all_mem_false _ "/"%char _ Hall class_not_sep) as Hsep.
  destruct Hn as [-> | ->].
  - by apply plain_name_intro.
  - rewrite append_cons. apply plain_name_intro; [| done].
    rewrite <- append_cons, mem_append, Hsep. reflexivity.
Qed.

Lemma join_plain (p : Path) (n : string) :
  plain_name n ->
  p // n = {| anchor := anchor p; parts := parts p ++ [n] |}.
Proof. intros [Hparse _]. unfold PurePath.join. by rewrite Hparse. Qed.

(** pathlib on a few paths. *)
Example path_samples :
  PurePath.to_str (PurePath.parse "a//b/./c/") = "a/b/c" /\
  PurePath.to_str (PurePath.parse "//x") = "//x" /\
  PurePath.to_str (PurePath.parse "///x") = "/x" /\
  PurePath.to_str here = "." /\
  PurePath.to_str (here // "demo") = "demo" /\
  PurePath.to_str (PurePath.parse "out" // "/abs") = "/abs" /\
  PurePath.to_str (PurePath.parse "out" // "a/../b") = "out/a/../b".
Proof. repeat split; reflexivity. Qed.

Lemma plain_scripts : plain_name "scripts".
Proof. by apply plain_name_intro. Qed.
Lemma plain_references : plain_name "references".
Proof. by apply plain_name_intro. Qed.
Lemma plain_assets : plain_name "assets".
Proof. by apply plain_name_intro. Qed.
Lemma plain_skill_md : plain_name "SKILL.md".
Proof. by apply plain_name_intro. Qed.
Lemma plain_example_py : plain_name "example.py".
Proof. by apply plain_name_intro. Qed.
Lemma plain_example_md : plain_name "example.md".
Proof. by apply plain_name_intro. Qed.
Lemma plain_gitkeep : plain_name ".gitkeep".
Proof. split; [reflexivity | done]. Qed.

Create HintDb plain.

#[local] Hint Resolve plain_scripts plain_references plain_assets
  plain_skill_md plain_example_py plain_example_md plain_gitkeep
  accepted_plain : plain.

(* ===================================================================== *)
(** * Properties: the file system *)
(* ===================================================================== *)

Lemma get_snoc (m : gmap key node) (k : key) (c : string) :
  Fs.get m (k ++ [c]) = m !! (k ++ [c]).
Proof. by destruct k. Qed.

Lemma get_insert_ne (m : gmap key node) (k k' : key) (v : node) :
  k <> k' -> Fs.get (<[k := v]> m) k' = Fs.get m k'.
Proof.
  intros Hne. destruct k' as [|c k']; [done |].
  cbn [Fs.get]. by rewrite lookup_insert_ne.
Qed.

Lemma get_insert_eq (m : gmap key node) (k : key) (v : node) :
  k <> [] -> Fs.get (<[k := v]> m) k = Some v.
Proof.
  intros Hne. destruct k as [|c k]; [done |].
  cbn [Fs.get]. by rewrite lookup_insert_eq.
Qed.

Lemma snoc_not_nil (k : key) (l : list string) (c : string) :
  k ++ c :: l <> [].
Proof. by destruct k. Qed.

Lemma step_plain (k : key) (n : string) :
  n <> ".." -> Fs.step k n = k ++ [n].
Proof.
  intros Hn. unfold Fs.step.
  by destruct (String.eqb_spec n "..").
Qed.

Lemma walk_app (m : gmap key node) (cur : key) (l1 l2 : list string) :
  Fs.walk m cur (l1 ++ l2) =
  match Fs.walk m cur l1 with
  | inl e => inl e
  | inr k => Fs.walk m k l2
  end.
Proof.
  revert cur. induction l1 as [|c l1 IH]; intros cur; [done |].
  cbn [app Fs.walk]. destruct (Fs.get m cur) as [[|?]|]; auto.
Qed.

Lemma walk_snoc (m : gmap key node) (cur : key) (l : list string) (c : string) :
  Fs.walk m cur (l ++ [c]) =
  match Fs.walk m cur l with
  | inl e => inl e
  | inr k =>
      match Fs.get m k with
      | None => inl FileNotFoundError
      | Some (File _) => inl NotADirectoryError
      | Some Dir => inr (Fs.step k c)
      end
  end.
Proof. rewrite walk_app. by destruct (Fs.walk m cur l). Qed.

Lemma dir_mono_refl (m : gmap key node) : dir_mono m m.
Proof. by intros k. Qed.

Lemma dir_mono_trans (m1 m2 m3 : gmap key node) :
  dir_mono m1 m2 -> dir_mono m2 m3 -> dir_mono m1 m3.
Proof. intros H12 H23 k Hk. auto. Qed.

Lemma dir_mono_insert_dir (m : gmap key node) (k : key) :
  dir_mono m (<[k := Dir]> m).
Proof.
  intros k' Hk'. destruct (decide (k = k')) as [<-|Hne].
  - destruct k; [done |]. by apply get_insert_eq.
  - by rewrite get_insert_ne.
Qed.

Lemma dir_mono_insert_file (m : gmap key node) (k : key) (d : string) :
  Fs.get m k <> Some Dir -> dir_mono m (<[k := File d]> m).
Proof.
  intros Hk k' Hk'. destruct (decide (k = k')) as [<-|Hne]; [done |].
  by rewrite get_insert_ne.
Qed.

(** Resolution only looks at directories: a path that resolves keeps its
    key when the directories are kept. *)
Lemma walk_mono (m m' : gmap key node) (cur : key) (l : list string) (k : key) :
  dir_mono m m' -> Fs.walk m cur l = inr k -> Fs.walk m' cur l = inr k.
Proof.
  intros Hmono. revert cur. induction l as [|c l IH]; intros cur; [done |].
  cbn [Fs.walk]. destruct (Fs.get m cur) as [[|?]|] eqn:Hcur; [| done | done].
  rewrite (Hmono _ Hcur). apply IH.
Qed.

Lemma resolve_set_fs (w : world) (m : gmap key node) (p : Path) :
  Fs.resolve (set_fs m w) p = Fs.walk m (Fs.start w p) (parts p).
Proof. reflexivity. Qed.

Lemma resolve_mono (w : world) (m' : gmap key node) (p : Path) (k : key) :
  dir_mono (fs w) m' -> Fs.resolve w p = inr k ->
  Fs.resolve (set_fs m' w) p = inr k.
Proof. intros Hmono Hres. rewrite resolve_set_fs. by eapply walk_mono. Qed.

Lemma resolve_join (w : world) (p : Path) (n : string) :
  plain_name n ->
  Fs.resolve w (p // n) =
  match Fs.resolve w p with
  | inl e => inl e
  | inr k =>
      match Fs.get (fs w) k with
      | None => inl FileNotFoundError
      | Some (File _) => inl NotADirectoryError
      | Some Dir => inr (k ++ [n])
      end
  end.
Proof.
  intros Hn. rewrite (join_plain _ _ Hn). unfold Fs.resolve, Fs.start, Fs.origin.
  cbn [anchor parts]. rewrite walk_snoc.
  destruct (Fs.walk _ _ _) as [e|k]; [done |].
  rewrite step_plain; [done |]. apply Hn.
Qed.

Lemma resolve_join_dir (w : world) (p : Path) (n : string) (k : key) :
  plain_name n -> Fs.resolve w p = inr k -> Fs.get (fs w) k = Some Dir ->
  Fs.resolve w (p // n) = inr (k ++ [n]).
Proof. intros Hn Hres Hdir. by rewrite resolve_join, Hres, Hdir. Qed.

(** Nothing lies below a location that is absent. *)
Lemma wf_absent_below (m : gmap key node) (k : key) (rel : list string) :
  fs_wf m -> Fs.get m k = None -> Fs.get m (k ++ rel) = None.
Proof.
  intros Hwf Hk. induction rel as [|c rel IH] using rev_ind.
  - by rewrite app_nil_r.
  - rewrite app_assoc, get_snoc.
    destruct (m !! ((k ++ rel) ++ [c])) as [v|] eqn:Hv; [| done].
    rewrite (Hwf (k ++ rel) c) in IH; [done |]. by rewrite Hv.
Qed.

(* ===================================================================== *)
(** * Properties: running the primitives *)
(* ===================================================================== *)

Lemma bind_return {A B} (m : prog A) (f : A -> prog B) (w w' : world) (a : A) :
  m w = (Return a, w') -> (m ≫= f) w = f a w'.
Proof. intros H. unfold mbind, prog_bind. by rewrite H. Qed.

Lemma path_eta (p : Path) : {| anchor := anchor p; parts := parts p |} = p.
Proof. by destruct p. Qed.

Lemma path_exists_absent (w : world) (p : Path) (k : key) :
  Fs.resolve w p = inr k -> Fs.get (fs w) k = None ->
  Fs.path_exists p w = (Return false, w).
Proof. intros Hres Hk. unfold Fs.path_exists. by rewrite Hres, Hk. Qed.

Lemma os_mkdir_new (w : world) (p : Path) (k : key) :
  Fs.resolve w p = inr k -> Fs.get (fs w) k = None ->
  Fs.os_mkdir p w = (Return tt, set_fs (<[k := Dir]> (fs w)) w).
Proof. intros Hres Hk. unfold Fs.os_mkdir. by rewrite Hres, Hk. Qed.

Lemma mkdir_plain_new (w : world) (p : Path) (exist_ok : bool) (k : key) :
  Fs.resolve w p = inr k -> Fs.get (fs w) k = None ->
  Fs.mkdir_plain p exist_ok w = (Return tt, set_fs (<[k := Dir]> (fs w)) w).
Proof.
  intros Hres Hk. unfold Fs.mkdir_plain. by rewrite (os_mkdir_new _ _ _ Hres Hk).
Qed.

Lemma mkdir_parents_rev_new (w : world) (a : string) (rp : list string)
      (exist_ok : bool) (k : key) :
  Fs.resolve w {| anchor := a; parts := rev rp |} = inr k ->
  Fs.get (fs w) k = None ->
  Fs.mkdir_parents_rev a rp exist_ok w
  = (Return tt, set_fs (<[k := Dir]> (fs w)) w).
Proof.
  intros Hres Hk. destruct rp; cbn [Fs.mkdir_parents_rev];
    by rewrite (os_mkdir_new _ _ _ Hres Hk).
Qed.

(** Making a directory whose parent exists. *)
Lemma mkdir_new_child (w : world) (p : Path) (n : string) (exist_ok : bool)
      (k : key) :
  plain_name n -> Fs.resolve w p = inr k -> Fs.get (fs w) k = Some Dir ->
  Fs.get (fs w) (k ++ [n]) = None ->
  Fs.mkdir (p // n) true exist_ok w
  = (Return tt, set_fs (<[k ++ [n] := Dir]> (fs w)) w).
Proof.
  intros Hn Hres Hdir Hnew. unfold Fs.mkdir.
  apply mkdir_parents_rev_new; [| done].
  rewrite rev_involutive, path_eta. by apply resolve_join_dir.
Qed.

(** Making a directory whose parent is missing and whose grandparent
    exists: the parent is made first. *)
Lemma mkdir_new_grandchild (w : world) (p : Path) (n c : string) (k : key) :
  plain_name n -> plain_name c ->
  Fs.resolve w p = inr k -> Fs.get (fs w) k = Some Dir ->
  Fs.get (fs w) (k ++ [n]) = None -> Fs.get (fs w) (k ++ [n; c]) = None ->
  Fs.mkdir (p // n // c) true false w
  = (Return tt,
     set_fs (<[k ++ [n; c] := Dir]> (<[k ++ [n] := Dir]> (fs w))) w).
Proof.
  intros Hn Hc Hres Hdir Hnew Hnew2. unfold Fs.mkdir.
  pose proof (resolve_join_dir _ _ _ _ Hn Hres Hdir) as Hres1.
  assert (Fs.resolve w (p // n // c) = inl FileNotFoundError) as Hres2.
  { by rewrite resolve_join, Hres1, Hnew. }
  rewrite (join_plain (p // n) c Hc) in Hres2 |- *.
  cbn [anchor parts]. rewrite rev_unit. cbn [Fs.mkdir_parents_rev].
  change (rev (c :: rev (parts (p // n))))
    with (rev (rev (parts (p // n))) ++ [c]).
  rewrite rev_involutive.
  unfold Fs.os_mkdir at 1. rewrite Hres2.
  rewrite (mkdir_parents_rev_new _ _ _ _ (k ++ [n])); [| | done].
  2:{ by rewrite rev_involutive, path_eta. }
  rewrite <- (join_plain (p // n) c Hc).
  assert (dir_mono (fs w) (<[k ++ [n] := Dir]> (fs w))) as Hmono
    by apply dir_mono_insert_dir.
  rewrite (mkdir_plain_new _ _ _ ((k ++ [n]) ++ [c])).
  - by rewrite <- app_assoc.
  - apply resolve_join_dir; [done | |].
    + by apply resolve_mono.
    + apply get_insert_eq, snoc_not_nil.
  - cbn [fs set_fs]. rewrite get_insert_ne.
    + by rewrite <- app_assoc.
    + intros Heq%(f_equal length). rewrite !length_app in Heq.
      simpl in Heq. lia.
Qed.

Lemma write_text_new (w : world) (p : Path) (data : string) (k : key) :
  Fs.resolve w p = inr k -> Fs.get (fs w) k = None ->
  Fs.write_text p data w
  = (Return tt, set_fs (<[k := File data]> (fs w)) w).
Proof. intros Hres Hk. unfold Fs.write_text. by rewrite Hres, Hk. Qed.

Lemma touch_new (w : world) (p : Path) (k : key) :
  Fs.resolve w p = inr k -> Fs.get (fs w) k = None ->
  Fs.touch p w = (Return tt, set_fs (<[k := File ""]> (fs w)) w).
Proof. intros Hres Hk. unfold Fs.touch. by rewrite Hres, Hk. Qed.

(** The three templates, rendered. *)
Lemma format_skill_md (skill_name : string) (w : world) :
  Format.format SKILL_MD_TEMPLATE
    [("skill_name", skill_name); ("skill_title", skill_title_of skill_name)] w
  = (Return (skill_md_text skill_name), w).
Proof. reflexivity. Qed.

Lemma format_example_script (skill_name : string) (w : world) :
  Format.format EXAMPLE_SCRIPT [("skill_name", skill_name)] w
  = (Return (example_script_text skill_name), w).
Proof. reflexivity. Qed.

Lemma format_example_reference (skill_name : string) (w : world) :
  Format.format EXAMPLE_REFERENCE [("skill_name", skill_name)] w
  = (Return (example_reference_text skill_name), w).
Proof. reflexivity. Qed.

(* ===================================================================== *)
(** * Properties: scaffolding into an existing directory *)
(* ===================================================================== *)

Ltac key_neq :=
  let H := fresh "Hkey" in
  intros H;
  first [ by apply app_inv_head in H
        | apply (f_equal length) in H; rewrite ?length_app in H;
          simpl in H; lia ].

Ltac solve_get :=
  cbn [fs set_fs];
  repeat first
    [ rewrite get_insert_eq by (first [apply snoc_not_nil | assumption])
    | rewrite get_insert_ne by key_neq ];
  first [ done | eauto ].

Lemma snoc2 (k : key) (a b : string) : k ++ [a; b] = (k ++ [a]) ++ [b].
Proof. by rewrite <- app_assoc. Qed.

Lemma set_fs_set_fs (m1 m2 : gmap key node) (w : world) :
  set_fs m2 (set_fs m1 w) = set_fs m2 w.
Proof. reflexivity. Qed.

(** Scaffolding when the output path is an existing directory that has no
    entry of the skill's name: the run returns, and the resulting world is
    known in full. *)
Lemma create_skill_directory_fresh (skill_name : string) (output_path : Path)
      (w : world) (k : key) :
  plain_name skill_name -> fs_wf (fs w) ->
  Fs.resolve w output_path = inr k -> Fs.get (fs w) k = Some Dir ->
  Fs.get (fs w) (k ++ [skill_name]) = None ->
  create_skill_directory skill_name output_path w
  = (Return tt,
     {| fs := scaffolded skill_name (k ++ [skill_name]) (fs w);
        cwd := cwd w;
        stdout := stdout w ++ next_steps (output_path // skill_name);
        stderr := stderr w |}).
Proof.
  intros Hname Hwf Hout Hdir Hnew.
  pose proof (resolve_join_dir _ _ _ _ Hname Hout Hdir) as Hsd.
  pose proof (fun rel => wf_absent_below _ _ rel Hwf Hnew) as Habs.
  assert (k ++ [skill_name] <> []) as Hnil by apply snoc_not_nil.
  unfold create_skill_directory.
  rewrite (bind_return _ _ _ _ _ (path_exists_absent _ _ _ Hsd Hnew)).
  (* scripts *)
  erewrite bind_return; cycle 1.
  { apply (mkdir_new_grandchild w output_path skill_name "scripts" k);
      auto with plain.
    rewrite (snoc2 k skill_name "scripts"). apply Habs. }
  rewrite (snoc2 k skill_name "scripts").
  set (sd := output_path // skill_name) in *.
  set (k' := k ++ [skill_name]) in *.
  set (m1 := <[k' ++ ["scripts"] := Dir]> (<[k' := Dir]> (fs w))).
  assert (dir_mono (fs w) m1) as Hm1.
  { eapply dir_mono_trans; apply dir_mono_insert_dir. }
  (* references *)
  erewrite bind_return; cycle 1.
  { apply (mkdir_new_child _ sd "references" false k'); auto with plain.
    - by apply resolve_mono.
    - subst m1. solve_get.
    - subst m1. solve_get. }
  rewrite ?set_fs_set_fs; cbn [fs set_fs].
  set (m2 := <[k' ++ ["references"] := Dir]> m1).
  assert (dir_mono (fs w) m2) as Hm2.
  { eapply dir_mono_trans; [exact Hm1 | apply dir_mono_insert_dir]. }
  (* assets *)
  erewrite bind_return; cycle 1.
  { apply (mkdir_new_child _ sd "assets" false k'); auto with plain.
    - by apply resolve_mono.
    - subst m2 m1. solve_get.
    - subst m2 m1. solve_get. }
  rewrite ?set_fs_set_fs; cbn [fs set_fs].
  set (m3 := <[k' ++ ["assets"] := Dir]> m2).
  assert (dir_mono (fs w) m3) as Hm3.
  { eapply dir_mono_trans; [exact Hm2 | apply dir_mono_insert_dir]. }
  assert (Fs.get m3 k' = Some Dir) as Hk'3 by (subst m3 m2 m1; solve_get).
  (* SKILL.md *)
  rewrite (bind_return _ _ _ _ _ (format_skill_md _ _)).
  erewrite bind_return; cycle 1.
  { apply (write_text_new _ _ _ (k' ++ ["SKILL.md"])).
    - apply resolve_join_dir; auto with plain. by apply resolve_mono.
    - subst m3 m2 m1. solve_get. }
  rewrite ?set_fs_set_fs; cbn [fs set_fs].
  set (m4 := <[k' ++ ["SKILL.md"] := File _]> m3).
  assert (dir_mono m3 m4) as Hm34.
  { apply dir_mono_insert_file. subst m3 m2 m1. solve_get.
    rewrite Habs. done. }
  (* scripts/example.py *)
  rewrite (bind_return _ _ _ _ _ (format_example_script _ _)).
  erewrite bind_return; cycle 1.
  { apply (write_text_new _ _ _ (k' ++ ["scripts"; "example.py"])).
    - rewrite (snoc2 k' "scripts" "example.py").
      apply resolve_join_dir; auto with plain.
      + apply resolve_join_dir; auto with plain.
        apply resolve_mono; [| done]. by eapply dir_mono_trans.
      + apply Hm34. subst m3 m2 m1. solve_get.
    - subst m4 m3 m2 m1. solve_get. }
  rewrite ?set_fs_set_fs; cbn [fs set_fs].
  set (m5 := <[k' ++ ["scripts"; "example.py"] := File _]> m4).
  assert (dir_mono m3 m5) as Hm35.
  { eapply dir_mono_trans; [exact Hm34 |].
    apply dir_mono_insert_file. subst m4 m3 m2 m1. solve_get.
    rewrite Habs. done. }
  (* references/example.md *)
  rewrite (bind_return _ _ _ _ _ (format_example_reference _ _)).
  erewrite bind_return; cycle 1.
  { apply (write_text_new _ _ _ (k' ++ ["references"; "example.md"])).
    - rewrite (snoc2 k' "references" "example.md").
      apply resolve_join_dir; auto with plain.
      + apply resolve_join_dir; auto with plain.
        apply resolve_mono; [| done]. by eapply dir_mono_trans.
      + apply Hm35. subst m3 m2 m1. solve_get.
    - subst m5 m4 m3 m2 m1. solve_get. }
  rewrite ?set_fs_set_fs; cbn [fs set_fs].
  set (m6 := <[k' ++ ["references"; "example.md"] := File _]> m5).
  assert (dir_mono m3 m6) as Hm36.
  { eapply dir_mono_trans; [exact Hm35 |].
    apply dir_mono_insert_file. subst m5 m4 m3 m2 m1. solve_get.
    rewrite Habs. done. }
  (* assets/.gitkeep *)
  erewrite bind_return; cycle 1.
  { apply (touch_new _ _ (k' ++ ["assets"; ".gitkeep"])).
    - rewrite (snoc2 k' "assets" ".gitkeep").
      apply resolve_join_dir; auto with plain.
      + apply resolve_join_dir; auto with plain.
        apply resolve_mono; [| done]. by eapply dir_mono_trans.
      + apply Hm36. subst m3. solve_get.
    - subst m6 m5 m4 m3 m2 m1. solve_get. }
  rewrite ?set_fs_set_fs; cbn [fs set_fs].
  unfold mbind, prog_bind, print. cbn [fs cwd stdout stderr set_fs].
  rewrite <- !app_assoc. unfold scaffolded, skill_files. cbn [foldl fst snd].
  rewrite app_nil_r. reflexivity.
Qed.

(* ===================================================================== *)
(** * Properties: the scaffolded file system *)
(* ===================================================================== *)

Lemma lookup_add_below (k : key) (l : list (key * node)) (m : gmap key node)
      (rel : key) :
  NoDup l.*1 ->
  foldl (fun acc (kv : key * node) => <[k ++ kv.1 := kv.2]> acc) m l
    !! (k ++ rel)
  = match (list_to_map l : gmap key node) !! rel with
    | Some v => Some v
    | None => m !! (k ++ rel)
    end.
Proof.
  revert m. induction l as [|[r v] l IH]; intros m Hnodup; [done |].
  apply NoDup_cons in Hnodup as [Hr Hnodup].
  cbn [foldl fst snd list_to_map foldr uncurry]. rewrite (IH _ Hnodup).
  rewrite (lookup_insert (list_to_map l)). case_decide as Heq.
  - subst rel. rewrite (not_elem_of_list_to_map_1 _ _ Hr).
    by rewrite lookup_insert_eq.
  - destruct (list_to_map l !! rel); [done |].
    rewrite lookup_insert_ne; [done |]. by intros ?%app_inv_head.
Qed.

Lemma lookup_add_elsewhere (k : key) (l : list (key * node))
      (m : gmap key node) (k' : key) :
  ~ k `prefix_of` k' ->
  foldl (fun acc (kv : key * node) => <[k ++ kv.1 := kv.2]> acc) m l !! k'
  = m !! k'.
Proof.
  intros Hout. revert m. induction l as [|[r v] l IH]; intros m; [done |].
  cbn [foldl fst snd]. rewrite IH, lookup_insert_ne; [done |].
  intros <-. apply Hout. by exists r.
Qed.

Lemma skill_files_nodup (skill_name : string) :
  NoDup (skill_files skill_name).*1.
Proof.
  unfold skill_files. cbn [fmap list_fmap fst].
  repeat (apply NoDup_cons; split;
          [ intros Hin;
            repeat (apply elem_of_cons in Hin as [Hin | Hin]; [discriminate |]);
            by apply elem_of_nil in Hin |]).
  apply NoDup_nil_2.
Qed.

(** Below a fresh skill directory the scaffolded file system holds the
    tree of the skill and nothing else. *)
Lemma scaffolded_inside (skill_name : string) (k : key) (m : gmap key node)
      (rel : key) :
  m !! (k ++ rel) = None ->
  scaffolded skill_name k m !! (k ++ rel) = skill_tree skill_name !! rel.
Proof.
  intros Hnone. unfold scaffolded.
  rewrite lookup_add_below by apply skill_files_nodup.
  fold (skill_tree skill_name). rewrite Hnone.
  by destruct (skill_tree skill_name !! rel).
Qed.

Lemma scaffolded_outside (skill_name : string) (k : key) (m : gmap key node)
      (k' : key) :
  ~ k `prefix_of` k' -> scaffolded skill_name k m !! k' = m !! k'.
Proof. apply lookup_add_elsewhere. Qed.

Lemma fs_wf_b_sound (m : gmap key node) : fs_wf_b m = true -> fs_wf m.
Proof.
  unfold fs_wf_b. rewrite forallb_forall. intros Hall k c [v Hv].
  apply elem_of_map_to_list, list_elem_of_In in Hv.
  specialize (Hall _ Hv). cbn [fst] in Hall.
  rewrite removelast_last in Hall.
  destruct (k ++ [c]) eqn:Hkc; [by destruct k |].
  by destruct (Fs.get m k) as [[|?]|].
Qed.

(* ===================================================================== *)
(** * Properties: any run of the primitives *)
(* ===================================================================== *)

Lemma bind_inv {A B} (m : prog A) (f : A -> prog B) (w w' : world) (b : B) :
  (m ≫= f) w = (Return b, w') ->
  exists a w1, m w = (Return a, w1) /\ f a w1 = (Return b, w').
Proof.
  unfold mbind, prog_bind. destruct (m w) as [[a|c|e] w1]; [eauto | done | done].
Qed.

Lemma grows_refl (w : world) : grows w w.
Proof. split; [done | apply dir_mono_refl]. Qed.

Lemma grows_trans (w1 w2 w3 : world) : grows w1 w2 -> grows w2 w3 -> grows w1 w3.
Proof.
  intros [Hc12 Hm12] [Hc23 Hm23]. split; [congruence |].
  by eapply dir_mono_trans.
Qed.

Lemma grows_resolve (w w1 : world) (p : Path) (k : key) :
  grows w w1 -> Fs.resolve w p = inr k -> Fs.resolve w1 p = inr k.
Proof.
  intros [Hcwd Hmono] Hres. unfold Fs.resolve, Fs.start, Fs.origin in *.
  rewrite Hcwd. by eapply walk_mono.
Qed.

Lemma grows_set_fs (w : world) (m : gmap key node) :
  dir_mono (fs w) m -> grows w (set_fs m w).
Proof. by split. Qed.

Lemma get_none_not_nil (m : gmap key node) (k : key) :
  Fs.get m k = None -> k <> [].
Proof. by destruct k. Qed.

Lemma resolve_join_inv (w : world) (p : Path) (n : string) (k' : key) :
  plain_name n -> Fs.resolve w (p // n) = inr k' ->
  exists k, Fs.resolve w p = inr k /\ Fs.get (fs w) k = Some Dir /\
            k' = k ++ [n].
Proof.
  intros Hn. rewrite (resolve_join _ _ _ Hn).
  destruct (Fs.resolve w p) as [e|k]; [done |].
  destruct (Fs.get (fs w) k) as [[|?]|] eqn:Hk; [| done | done].
  intros [= <-]. eauto.
Qed.

(** [os.mkdir] either leaves the world alone or adds one directory. *)
Lemma os_mkdir_run (p : Path) (w w1 : world) (r : outcome unit) :
  Fs.os_mkdir p w = (r, w1) ->
  (w1 = w /\ r <> Return tt) \/
  (exists k, r = Return tt /\ Fs.resolve w p = inr k /\
             Fs.get (fs w) k = None /\
             w1 = set_fs (<[k := Dir]> (fs w)) w).
Proof.
  unfold Fs.os_mkdir. destruct (Fs.resolve w p) as [e|k].
  - intros [= <- <-]. by left.
  - destruct (Fs.get (fs w) k) eqn:Hk.
    + intros [= <- <-]. by left.
    + intros [= <- <-]. right. eauto.
Qed.

Lemma is_dir_true (p : Path) (w w1 : world) :
  Fs.is_dir p w = (Return true, w1) ->
  exists k, Fs.resolve w p = inr k /\ Fs.get (fs w) k = Some Dir.
Proof.
  unfold Fs.is_dir. destruct (Fs.resolve w p) as [e|k]; [done |].
  destruct (Fs.get (fs w) k) as [[|?]|] eqn:Hk; [eauto | done | done].
Qed.

Lemma made_dir_new (w : world) (p : Path) (k : key) :
  Fs.resolve w p = inr k -> Fs.get (fs w) k = None ->
  grows w (set_fs (<[k := Dir]> (fs w)) w) /\
  Fs.resolve (set_fs (<[k := Dir]> (fs w)) w) p = inr k /\
  Fs.get (<[k := Dir]> (fs w)) k = Some Dir.
Proof.
  intros Hres Hk. split; [| split].
  - apply grows_set_fs, dir_mono_insert_dir.
  - apply resolve_mono; [apply dir_mono_insert_dir | done].
  - by eapply get_insert_eq, get_none_not_nil.
Qed.

(** Any run of [mkdir] without [parents]: the world grows, and a run that
    returns leaves a directory at the path. *)
Lemma mkdir_plain_run (p : Path) (exist_ok : bool) (w w1 : world)
      (r : outcome unit) :
  Fs.mkdir_plain p exist_ok w = (r, w1) ->
  grows w w1 /\
  (r = Return tt ->
   exists k, Fs.resolve w1 p = inr k /\ Fs.get (fs w1) k = Some Dir).
Proof.
  unfold Fs.mkdir_plain.
  destruct (Fs.os_mkdir p w) as [r0 w0] eqn:Hos.
  apply os_mkdir_run in Hos as [[-> Hr0] | (k & -> & Hres & Hk & ->)].
  - destruct r0 as [[]|c|e]; [done | |].
    + intros [= <- <-]. split; [apply grows_refl | done].
    + destruct e;
        [intros [= <- <-]; split; [apply grows_refl | done] | ..];
        destruct (Fs.is_dir p w) as [[[]|?|?] w2] eqn:Hdir;
        destruct exist_ok; intros [= <- <-];
        (split; [apply grows_refl | try done]).
      all: intros _; by apply is_dir_true in Hdir.
  - intros [= <- <-].
    destruct (made_dir_new _ _ _ Hres Hk) as (Hg & Hres' & Hk').
    split; [done |]. intros _. eauto.
Qed.

(** Any run of [mkdir] with [parents]: the world grows. *)
Lemma mkdir_parents_rev_grows (a : string) (rp : list string) :
  forall (exist_ok : bool) (w w1 : world) (r : outcome unit),
  Fs.mkdir_parents_rev a rp exist_ok w = (r, w1) -> grows w w1.
Proof.
  induction rp as [|c rp IH]; intros exist_ok w w1 r;
    cbn [Fs.mkdir_parents_rev];
    destruct (Fs.os_mkdir _ w) as [r0 w0] eqn:Hos;
    apply os_mkdir_run in Hos as [[-> Hr0] | (k & -> & Hres & Hk & ->)].
  - destruct r0 as [[]|?|e]; [done | |].
    { intros [= <- <-]. apply grows_refl. }
    destruct e; [by intros [= <- <-]; apply grows_refl | ..];
      destruct (Fs.is_dir _ w) as [[[]|?|?] w2];
      destruct exist_ok; intros [= <- <-]; apply grows_refl.
  - intros [= <- <-]. by apply made_dir_new in Hres as [? _].
  - destruct r0 as [[]|?|e]; [done | |].
    { intros [= <- <-]. apply grows_refl. }
    destruct e.
    1:{ destruct (Fs.mkdir_parents_rev a rp true w) as [[[]|?|?] w2] eqn:Hrec;
          pose proof (IH _ _ _ _ Hrec) as Hg.
        - intros [Hplain _]%mkdir_plain_run. by eapply grows_trans.
        - by intros [= <- <-].
        - by intros [= <- <-]. }
    all: destruct (Fs.is_dir _ w) as [[[]|?|?] w2];
      destruct exist_ok; intros [= <- <-]; apply grows_refl.
  - intros [= <- <-]. by apply made_dir_new in Hres as [? _].
Qed.

(** A run of [mkdir] with [parents] that returns leaves a directory at the
    path. *)
Lemma mkdir_parents_rev_returns (a : string) (rp : list string)
      (exist_ok : bool) (w w1 : world) :
  Fs.mkdir_parents_rev a rp exist_ok w = (Return tt, w1) ->
  exists k, Fs.resolve w1 {| anchor := a; parts := rev rp |} = inr k /\
            Fs.get (fs w1) k = Some Dir.
Proof.
  destruct rp as [|c rp]; cbn [Fs.mkdir_parents_rev];
    destruct (Fs.os_mkdir _ w) as [r0 w0] eqn:Hos;
    apply os_mkdir_run in Hos as [[-> Hr0] | (k & -> & Hres & Hk & ->)].
  - destruct r0 as [[]|?|e]; [done | done |].
    destruct e; [done | ..];
      destruct (Fs.is_dir _ w) as [[[]|?|?] w2] eqn:Hdir;
      destruct exist_ok; intros [= <-]; by apply is_dir_true in Hdir.
  - intros [= <-]. apply made_dir_new in Hres as (_ & ? & ?); eauto.
  - destruct r0 as [[]|?|e]; [done | done |].
    destruct e.
    1:{ destruct (Fs.mkdir_parents_rev a rp true w) as [[[]|?|?] w2];
          [| done | done].
        intros [_ Hret]%mkdir_plain_run. by apply Hret. }
    all: destruct (Fs.is_dir _ w) as [[[]|?|?] w2] eqn:Hdir;
      destruct exist_ok; intros [= <-]; by apply is_dir_true in Hdir.
  - intros [= <-]. apply made_dir_new in Hres as (_ & ? & ?); eauto.
Qed.

Lemma mkdir_parents_returns (p : Path) (exist_ok : bool) (w w1 : world) :
  Fs.mkdir p true exist_ok w = (Return tt, w1) ->
  grows w w1 /\
  exists k, Fs.resolve w1 p = inr k /\ Fs.get (fs w1) k = Some Dir.
Proof.
  unfold Fs.mkdir. intros Hrun. split.
  - by eapply mkdir_parents_rev_grows.
  - apply mkdir_parents_rev_returns in Hrun.
    by rewrite rev_involutive, path_eta in Hrun.
Qed.

Lemma write_text_returns (p : Path) (data : string) (w w1 : world) :
  Fs.write_text p data w = (Return tt, w1) ->
  exists k, Fs.resolve w p = inr k /\ k <> [] /\ grows w w1 /\
            fs w1 = <[k := File data]> (fs w).
Proof.
  unfold Fs.write_text. destruct (Fs.resolve w p) as [e|k]; [done |].
  destruct (Fs.get (fs w) k) as [[|?]|] eqn:Hk; [done | |];
    intros [= <-]; exists k; (split; [done |]);
    (split; [by destruct k |]);
    (split; [| done]); apply grows_set_fs, dir_mono_insert_file;
    by rewrite Hk.
Qed.

Lemma touch_returns (p : Path) (w w1 : world) :
  Fs.touch p w = (Return tt, w1) ->
  exists k, Fs.resolve w p = inr k /\ grows w w1 /\
            ((fs w1 = fs w /\ is_Some (Fs.get (fs w) k)) \/
             (fs w1 = <[k := File ""]> (fs w) /\ k <> [])).
Proof.
  unfold Fs.touch. destruct (Fs.resolve w p) as [e|k]; [done |].
  destruct (Fs.get (fs w) k) eqn:Hk; intros [= <-]; exists k.
  - split; [done |]. split; [apply grows_refl |]. left. by rewrite Hk.
  - split; [done |]. split.
    + apply grows_set_fs, dir_mono_insert_file. by rewrite Hk.
    + right. split; [done |]. by destruct k.
Qed.

(* ===================================================================== *)
(** * Properties: any scaffolding run that returns *)
(* ===================================================================== *)

Lemma path_exists_run (p : Path) (w w1 : world) (r : outcome bool) :
  Fs.path_exists p w = (r, w1) -> w1 = w.
Proof.
  unfold Fs.path_exists. destruct (Fs.resolve w p) as [e|k].
  - by intros [= _ <-].
  - destruct (Fs.get (fs w) k); by intros [= _ <-].
Qed.

Lemma grows_dir (w w1 : world) (k : key) :
  grows w w1 -> Fs.get (fs w) k = Some Dir -> Fs.get (fs w1) k = Some Dir.
Proof. intros [_ Hmono]. apply Hmono. Qed.

Lemma create_skill_directory_steps (skill_name : string)
      (output_path : Path) (w w' : world) :
  create_skill_directory skill_name output_path w = (Return tt, w') ->
  scaffold_steps skill_name output_path w w'.
Proof.
  intros Hrun. unfold create_skill_directory in Hrun. unfold scaffold_steps.
  set (sd := output_path // skill_name) in *.
  apply bind_inv in Hrun as (present & w0 & Hex & Hrun).
  pose proof (path_exists_run _ _ _ _ Hex) as ->.
  destruct present.
  { apply bind_inv in Hrun as (? & ? & _ & Hrun). discriminate Hrun. }
  apply bind_inv in Hrun as ([] & w1 & Hmk1 & Hrun).
  apply bind_inv in Hrun as ([] & w2 & Hmk2 & Hrun).
  apply bind_inv in Hrun as ([] & w3 & Hmk3 & Hrun).
  apply bind_inv in Hrun as (t1 & w3' & Hf1 & Hrun).
  rewrite format_skill_md in Hf1. injection Hf1 as <- <-.
  apply bind_inv in Hrun as ([] & w4 & Hwr4 & Hrun).
  apply bind_inv in Hrun as (t2 & w4' & Hf2 & Hrun).
  rewrite format_example_script in Hf2. injection Hf2 as <- <-.
  apply bind_inv in Hrun as ([] & w5 & Hwr5 & Hrun).
  apply bind_inv in Hrun as (t3 & w5' & Hf3 & Hrun).
  rewrite format_example_reference in Hf3. injection Hf3 as <- <-.
  apply bind_inv in Hrun as ([] & w6 & Hwr6 & Hrun).
  apply bind_inv in Hrun as ([] & w7 & Htouch & Hrun).
  exists w1, w2, w3, w4, w5, w6, w7. repeat (split; [done |]).
  unfold mbind, prog_bind, print in Hrun. cbn in Hrun.
  by injection Hrun as <-.
Qed.

(** The course of any scaffolding run that returns. *)
Lemma scaffold_run_detail (skill_name : string)
      (output_path : Path) (w w' : world) :
  plain_name skill_name ->
  create_skill_directory skill_name output_path w = (Return tt, w') ->
  exists k w1 w2 w3, scaffold_detail skill_name output_path w w' k w1 w2 w3.
Proof.
  intros Hname Hrun.
  destruct (create_skill_directory_steps _ _ _ _ Hrun)
    as (w1 & w2 & w3 & w4 & w5 & w6 & w7 & Hex & Hmk1 & Hmk2 & Hmk3
        & Hwr4 & Hwr5 & Hwr6 & Htouch & Hfs & Hcwd).
  unfold scaffold_detail.
  set (sd := output_path // skill_name) in *.
  (* the three directories *)
  pose proof Hmk1 as Hmk1'. pose proof Hmk2 as Hmk2'. pose proof Hmk3 as Hmk3'.
  apply mkdir_parents_returns in Hmk1 as (Hg1 & ks & Hrs & Hks).
  apply (resolve_join_inv _ _ _ _ plain_scripts) in Hrs as (k & Hsd1 & Hk1 & ->).
  apply mkdir_parents_returns in Hmk2 as (Hg2 & kr & Hrr & Hkr).
  apply (resolve_join_inv _ _ _ _ plain_references) in Hrr
    as (k2 & Hsd2 & Hk2 & ->).
  pose proof (grows_resolve _ _ _ _ Hg2 Hsd1) as Hsd2'.
  rewrite Hsd2' in Hsd2. injection Hsd2 as <-.
  apply mkdir_parents_returns in Hmk3 as (Hg3 & ka & Hra & Hka).
  apply (resolve_join_inv _ _ _ _ plain_assets) in Hra
    as (k3 & Hsd3' & Hk3 & ->).
  pose proof (grows_resolve _ _ _ _ Hg3 Hsd2') as Hsd3.
  rewrite Hsd3 in Hsd3'. injection Hsd3' as <-.
  pose proof (grows_dir _ _ _ (grows_trans _ _ _ Hg2 Hg3) Hks) as Hks3.
  pose proof (grows_dir _ _ _ Hg3 Hkr) as Hkr3.
  (* SKILL.md *)
  apply write_text_returns in Hwr4 as (k4 & Hr4 & Hn4 & Hg4 & Hfs4).
  apply (resolve_join_inv _ _ _ _ plain_skill_md) in Hr4 as (? & Hsd4 & _ & ->).
  rewrite Hsd3 in Hsd4. injection Hsd4 as <-.
  (* scripts/example.py *)
  apply write_text_returns in Hwr5 as (k5 & Hr5 & Hn5 & Hg5 & Hfs5).
  apply (resolve_join_inv _ _ _ _ plain_example_py) in Hr5 as (? & Hr5 & _ & ->).
  apply (resolve_join_inv _ _ _ _ plain_scripts) in Hr5 as (? & Hsd5 & _ & ->).
  rewrite (grows_resolve _ _ _ _ Hg4 Hsd3) in Hsd5. injection Hsd5 as <-.
  rewrite <- snoc2 in Hfs5.
  pose proof (grows_trans _ _ _ Hg4 Hg5) as Hg35.
  (* references/example.md *)
  apply write_text_returns in Hwr6 as (k6 & Hr6 & Hn6 & Hg6 & Hfs6).
  apply (resolve_join_inv _ _ _ _ plain_example_md) in Hr6 as (? & Hr6 & _ & ->).
  apply (resolve_join_inv _ _ _ _ plain_references) in Hr6 as (? & Hsd6 & _ & ->).
  rewrite (grows_resolve _ _ _ _ Hg35 Hsd3) in Hsd6. injection Hsd6 as <-.
  rewrite <- snoc2 in Hfs6.
  pose proof (grows_trans _ _ _ Hg35 Hg6) as Hg36.
  (* assets/.gitkeep *)
  apply touch_returns in Htouch as (k7 & Hr7 & Hg7 & Hfs7).
  apply (resolve_join_inv _ _ _ _ plain_gitkeep) in Hr7 as (? & Hr7 & _ & ->).
  apply (resolve_join_inv _ _ _ _ plain_assets) in Hr7 as (? & Hsd7 & _ & ->).
  rewrite (grows_resolve _ _ _ _ Hg36 Hsd3) in Hsd7. injection Hsd7 as <-.
  rewrite <- snoc2 in Hfs7.
  pose proof (grows_trans _ _ _ Hg36 Hg7) as [Hcwd37 Hmono37].
  exists k, w1, w2, w3. repeat (split; [done |]). split.
  - unfold files_added. rewrite Hfs.
    destruct Hfs7 as [[-> Hsome] | [-> _]]; rewrite Hfs6, Hfs5, Hfs4.
    + left. split; [done |]. by rewrite Hfs6, Hfs5, Hfs4 in Hsome.
    + by right.
  - split; [congruence | by rewrite Hfs].
Qed.

(** Whatever the output path and the file system, a run of
    [create_skill_directory] that returns leaves the skill directory, its
    three subdirectories and its four files at the location of
    [output_path / skill_name]. *)
Lemma create_skill_directory_returns (skill_name : string)
      (output_path : Path) (w w' : world) :
  plain_name skill_name ->
  create_skill_directory skill_name output_path w = (Return tt, w') ->
  exists k, Fs.resolve w' (output_path // skill_name) = inr k /\
            skill_directory_at skill_name (fs w') k.
Proof.
  intros Hname Hrun.
  destruct (scaffold_run_detail _ _ _ _ Hname Hrun)
    as (k & w1 & w2 & w3 & _ & _ & _ & _ & Hsd & Hk & Hks & Hkr & Hka
        & Hfiles & Hg).
  exists k. split; [by apply (grows_resolve _ _ _ _ Hg) |].
  unfold skill_directory_at.
  destruct Hfiles as [[-> Hsome] | ->].
  - repeat split; solve_get. revert Hsome. solve_get.
  - repeat split; solve_get.
Qed.

(* ===================================================================== *)
(** * Properties: paths written without [..] *)
(* ===================================================================== *)

Lemma no_dotdot_cons (c : string) (l : list string) :
  no_dotdot (c :: l) <-> c <> ".." /\ no_dotdot l.
Proof.
  unfold no_dotdot. rewrite not_elem_of_cons. split.
  - intros [Hc Hl]. split; [by intros -> | done].
  - intros [Hc Hl]. split; [by intros <- | done].
Qed.

Lemma no_dotdot_app (l1 l2 : list string) :
  no_dotdot (l1 ++ l2) <-> no_dotdot l1 /\ no_dotdot l2.
Proof. unfold no_dotdot. rewrite elem_of_app. tauto. Qed.

Lemma no_dotdot_rev (l : list string) : no_dotdot (rev l) <-> no_dotdot l.
Proof. unfold no_dotdot. by rewrite !list_elem_of_In, <- in_rev. Qed.

Lemma no_dotdot_snoc_plain (l : list string) (n : string) :
  no_dotdot l -> plain_name n -> no_dotdot (l ++ [n]).
Proof.
  intros Hl [_ Hn]. apply no_dotdot_app. split; [done |].
  apply no_dotdot_cons. split; [done | apply not_elem_of_nil].
Qed.

(** A path without [..] resolves, when it does, to the location spelled
    by its components. *)
Lemma walk_plain_key (m : gmap key node) (cur : key) (l : list string)
      (k : key) :
  no_dotdot l -> Fs.walk m cur l = inr k -> k = cur ++ l.
Proof.
  revert cur. induction l as [|c l IH]; intros cur Hl.
  - intros [= <-]. by rewrite app_nil_r.
  - apply no_dotdot_cons in Hl as [Hc Hl]. cbn [Fs.walk].
    destruct (Fs.get m cur) as [[|?]|]; [| done | done].
    rewrite (step_plain _ _ Hc). intros ->%(IH _ Hl).
    by rewrite <- app_assoc.
Qed.

Lemma resolve_plain_key (w : world) (p : Path) (k : key) :
  no_dotdot (parts p) -> Fs.resolve w p = inr k ->
  k = Fs.start w p ++ parts p.
Proof. apply walk_plain_key. Qed.

(** In a well-formed file system everything above an entry is a
    directory. *)
Lemma wf_prefix_dir (m : gmap key node) (k : key) (c : string)
      (rest : list string) :
  fs_wf m -> is_Some (m !! (k ++ c :: rest)) -> Fs.get m k = Some Dir.
Proof.
  intros Hwf. induction rest as [|d rest IH] using rev_ind.
  - apply Hwf.
  - intros Hsome. apply IH.
    replace (k ++ c :: rest ++ [d]) with ((k ++ c :: rest) ++ [d]) in Hsome
      by (by rewrite <- app_assoc).
    apply Hwf in Hsome. exists Dir. rewrite <- Hsome. by destruct k.
Qed.

(** A path without [..] to an entry that is there resolves. *)
Lemma walk_present (m : gmap key node) (cur : key) (l : list string) :
  fs_wf m -> no_dotdot l -> is_Some (Fs.get m (cur ++ l)) ->
  Fs.walk m cur l = inr (cur ++ l).
Proof.
  intros Hwf. revert cur. induction l as [|c l IH]; intros cur Hl Hsome.
  - by rewrite app_nil_r.
  - apply no_dotdot_cons in Hl as [Hc Hl]. cbn [Fs.walk].
    assert (Fs.get m cur = Some Dir) as ->.
    { apply (wf_prefix_dir m cur c l Hwf).
      destruct cur; exact Hsome. }
    rewrite (step_plain _ _ Hc), (IH (cur ++ [c]) Hl);
      rewrite <- app_assoc; done.
Qed.

(** When [exists()] is false for a path without [..], nothing is at the
    location the path spells. *)
Lemma path_exists_false_absent (w w0 : world) (p : Path) :
  fs_wf (fs w) -> no_dotdot (parts p) ->
  Fs.path_exists p w = (Return false, w0) ->
  Fs.get (fs w) (Fs.start w p ++ parts p) = None.
Proof.
  intros Hwf Hp. unfold Fs.path_exists.
  destruct (Fs.resolve w p) as [e|k] eqn:Hres.
  - intros _.
    destruct (Fs.get (fs w) (Fs.start w p ++ parts p)) eqn:Hget; [| done].
    unfold Fs.resolve in Hres. rewrite walk_present in Hres; [done .. |].
    by rewrite Hget.
  - apply (resolve_plain_key _ _ _ Hp) in Hres as ->.
    by destruct (Fs.get (fs w) _).
Qed.

Lemma path_exists_false_inv (w w0 : world) (p : Path) (k : key) :
  Fs.path_exists p w = (Return false, w0) -> Fs.resolve w p = inr k ->
  Fs.get (fs w) k = None.
Proof.
  unfold Fs.path_exists. intros Hex Hres. rewrite Hres in Hex.
  by destruct (Fs.get (fs w) k).
Qed.

Lemma prefix_snoc_cases (l' l : list string) (c : string) :
  l' `prefix_of` l ++ [c] -> l' `prefix_of` l \/ l' = l ++ [c].
Proof.
  intros [rest Hrest].
  destruct rest as [|d rest _] using rev_ind.
  - right. by rewrite app_nil_r in Hrest.
  - left. rewrite app_assoc in Hrest.
    apply app_inj_tail in Hrest as [-> _]. by exists rest.
Qed.

Lemma adds_dirs_refl (w : world) (P : key -> Prop) : adds_dirs w w P.
Proof. by intros k Hk. Qed.

Lemma adds_dirs_weaken (w w1 : world) (P Q : key -> Prop) :
  (forall k, P k -> Q k) -> adds_dirs w w1 P -> adds_dirs w w1 Q.
Proof. intros HPQ Hadds k Hk. destruct (Hadds k Hk) as (? & ? & ?). auto. Qed.

Lemma adds_dirs_trans (w w2 w1 : world) (P : key -> Prop) :
  adds_dirs w w2 P -> adds_dirs w2 w1 P -> dir_mono (fs w2) (fs w1) ->
  adds_dirs w w1 P.
Proof.
  intros H1 H2 Hmono k Hk.
  destruct (decide (Fs.get (fs w2) k = Fs.get (fs w) k)) as [Heq|Hne].
  - rewrite <- Heq in Hk |- *. by apply H2.
  - destruct (H1 k Hne) as (Hnone & Hdir & HP). auto.
Qed.

Lemma adds_dirs_new (w : world) (k : key) (P : key -> Prop) :
  Fs.get (fs w) k = None -> P k ->
  adds_dirs w (set_fs (<[k := Dir]> (fs w)) w) P.
Proof.
  intros Hnone HP k' Hk'. cbn [fs set_fs] in *.
  destruct (decide (k = k')) as [<-|Hne].
  - split; [done |]. split; [| done].
    by eapply get_insert_eq, get_none_not_nil.
  - by rewrite get_insert_ne in Hk'.
Qed.

(** [mkdir] without [parents] changes nothing or adds the directory. *)
Lemma mkdir_plain_cases (p : Path) (exist_ok : bool) (w w1 : world)
      (r : outcome unit) :
  Fs.mkdir_plain p exist_ok w = (r, w1) ->
  w1 = w \/
  exists k, Fs.resolve w p = inr k /\ Fs.get (fs w) k = None /\
            w1 = set_fs (<[k := Dir]> (fs w)) w.
Proof.
  unfold Fs.mkdir_plain.
  destruct (Fs.os_mkdir p w) as [r0 w0] eqn:Hos.
  apply os_mkdir_run in Hos as [[-> Hr0] | (k & -> & Hres & Hk & ->)].
  - destruct r0 as [[]|c|e]; [done | by intros [= _ <-]; left |].
    destruct e; [by intros [= _ <-]; left | ..];
      destruct (Fs.is_dir p w) as [[[]|?|?] w2];
      destruct exist_ok; intros [= _ <-]; by left.
  - intros [= _ <-]. right. eauto.
Qed.

Lemma mkdir_plain_adds (p : Path) (exist_ok : bool) (w w1 : world)
      (r : outcome unit) :
  no_dotdot (parts p) -> Fs.mkdir_plain p exist_ok w = (r, w1) ->
  adds_dirs w w1 (fun k => k = Fs.start w p ++ parts p).
Proof.
  intros Hp [-> | (k & Hres & Hk & ->)]%mkdir_plain_cases.
  - apply adds_dirs_refl.
  - apply adds_dirs_new; [done |]. by apply resolve_plain_key.
Qed.

(** [mkdir] with [parents] on a path without [..] only adds directories,
    each at a location spelled by a prefix of the path. *)
Lemma mkdir_parents_rev_adds (a : string) (rp : list string) :
  no_dotdot rp ->
  forall (exist_ok : bool) (w w1 : world) (r : outcome unit),
  Fs.mkdir_parents_rev a rp exist_ok w = (r, w1) ->
  adds_dirs w w1
    (fun k => exists l', l' `prefix_of` rev rp /\ k = Fs.origin w a ++ l').
Proof.
  induction rp as [|c rp IH]; intros Hrp exist_ok w w1 r;
    cbn [Fs.mkdir_parents_rev];
    destruct (Fs.os_mkdir _ w) as [r0 w0] eqn:Hos;
    apply os_mkdir_run in Hos as [[-> Hr0] | (k & -> & Hres & Hk & ->)].
  - destruct r0 as [[]|?|e]; [done | |].
    { intros [= _ <-]. apply adds_dirs_refl. }
    destruct e; [by intros [= _ <-]; apply adds_dirs_refl | ..];
      destruct (Fs.is_dir _ w) as [[[]|?|?] w2];
      destruct exist_ok; intros [= _ <-]; apply adds_dirs_refl.
  - intros [= _ <-]. apply adds_dirs_new; [done |].
    apply resolve_plain_key in Hres; [| done]. eauto.
  - apply no_dotdot_cons in Hrp as [Hc Hrp'].
    destruct r0 as [[]|?|e]; [done | |].
    { intros [= _ <-]. apply adds_dirs_refl. }
    destruct e.
    1:{ destruct (Fs.mkdir_parents_rev a rp true w) as [r2 w2] eqn:Hrec.
        pose proof (IH Hrp' _ _ _ _ Hrec) as Hadds.
        pose proof (mkdir_parents_rev_grows _ _ _ _ _ _ Hrec) as [Hcwd _].
        assert (adds_dirs w w2
                  (fun k => exists l', l' `prefix_of` rev (c :: rp) /\
                                       k = Fs.origin w a ++ l')) as Hadds'.
        { eapply adds_dirs_weaken; [| exact Hadds].
          intros k (l' & Hl' & ->). exists l'. split; [| done].
          cbn [rev]. by apply prefix_app_r. }
        destruct r2 as [[]|?|?]; [| by intros [= _ <-] ..].
        intros Hplain.
        pose proof (mkdir_plain_run _ _ _ _ _ Hplain) as [[_ Hmono] _].
        eapply adds_dirs_trans; [exact Hadds' | | exact Hmono].
        eapply adds_dirs_weaken; [| eapply mkdir_plain_adds; [| exact Hplain]].
        - intros k ->. exists (rev (c :: rp)). split; [done |].
          unfold Fs.start, Fs.origin. cbn [anchor parts]. by rewrite Hcwd.
        - cbn [parts]. apply no_dotdot_rev, no_dotdot_cons. done. }
    all: destruct (Fs.is_dir _ w) as [[[]|?|?] w2];
      destruct exist_ok; intros [= _ <-]; apply adds_dirs_refl.
  - intros [= _ <-]. apply adds_dirs_new; [done |].
    apply resolve_plain_key in Hres; [| by apply no_dotdot_rev]. eauto.
Qed.

Lemma mkdir_parents_adds (p : Path) (exist_ok : bool) (w w1 : world)
      (r : outcome unit) :
  no_dotdot (parts p) -> Fs.mkdir p true exist_ok w = (r, w1) ->
  adds_dirs w w1
    (fun k => exists l', l' `prefix_of` parts p /\ k = Fs.start w p ++ l').
Proof.
  intros Hp Hrun. unfold Fs.mkdir in Hrun.
  apply mkdir_parents_rev_adds in Hrun; [| by apply no_dotdot_rev].
  by rewrite rev_involutive in Hrun.
Qed.

(* ===================================================================== *)
(** * Properties: what a scaffolding run changes *)
(* ===================================================================== *)

Lemma get_nonempty (m : gmap key node) (k : key) :
  k <> [] -> Fs.get m k = m !! k.
Proof. by destruct k. Qed.

Lemma get_insert_congr (m1 m2 : gmap key node) (i k : key) (x : node) :
  Fs.get m1 k = Fs.get m2 k ->
  Fs.get (<[i := x]> m1) k = Fs.get (<[i := x]> m2) k.
Proof.
  intros Heq. destruct k as [|c k]; [done |]. cbn [Fs.get] in *.
  rewrite !lookup_insert. by case_decide.
Qed.

(** The three [mkdir] calls of a run on an output path without [..] add
    nothing but directories above the skill directory, the skill
    directory, and its three subdirectories. *)
Lemma scaffold_dirs_added (skill_name : string) (output_path : Path)
      (w w1 w2 w3 : world) (k : key) :
  plain_name skill_name -> no_dotdot (parts output_path) ->
  Fs.mkdir (output_path // skill_name // "scripts") true false w
  = (Return tt, w1) ->
  Fs.mkdir (output_path // skill_name // "references") true false w1
  = (Return tt, w2) ->
  Fs.mkdir (output_path // skill_name // "assets") true false w2
  = (Return tt, w3) ->
  Fs.resolve w3 (output_path // skill_name) = inr k ->
  grows w w3 /\
  k = Fs.start w output_path ++ parts output_path ++ [skill_name] /\
  adds_dirs w w3
    (fun k' => k' `prefix_of` k \/
               k' = k ++ ["scripts"] \/ k' = k ++ ["references"] \/
               k' = k ++ ["assets"]).
Proof.
  intros Hname Hout Hmk1 Hmk2 Hmk3 Hsd.
  pose proof (mkdir_parents_returns _ _ _ _ Hmk1) as [Hg1 _].
  pose proof (mkdir_parents_returns _ _ _ _ Hmk2) as [Hg2 _].
  pose proof (mkdir_parents_returns _ _ _ _ Hmk3) as [Hg3 _].
  pose proof (grows_trans _ _ _ Hg1 Hg2) as Hg12.
  pose proof (grows_trans _ _ _ Hg12 Hg3) as Hg13.
  assert (no_dotdot (parts (output_path // skill_name))) as Hsdp.
  { rewrite (join_plain _ _ Hname). by apply no_dotdot_snoc_plain. }
  apply (resolve_plain_key _ _ _ Hsdp) in Hsd.
  assert (k = Fs.start w output_path ++ parts output_path ++ [skill_name])
    as Hk.
  { rewrite Hsd, (join_plain _ _ Hname). unfold Fs.start, Fs.origin.
    cbn [anchor parts]. by rewrite (proj1 Hg13). }
  split; [done |]. split; [done |].
  assert (forall w0 w0' (x : string) r,
            plain_name x -> cwd w0 = cwd w ->
            Fs.mkdir (output_path // skill_name // x) true false w0 = (r, w0') ->
            adds_dirs w0 w0'
              (fun k' => k' `prefix_of` k \/ k' = k ++ [x])) as Hstep.
  { intros w0 w0' x r Hx Hcwd Hmk.
    apply mkdir_parents_adds in Hmk.
    2:{ rewrite (join_plain _ _ Hx). by apply no_dotdot_snoc_plain. }
    eapply adds_dirs_weaken; [| exact Hmk].
    intros k' (l' & Hl' & ->).
    assert (Fs.start w0 (output_path // skill_name // x)
            = Fs.start w output_path) as ->.
    { unfold Fs.start, Fs.origin. rewrite (join_plain _ _ Hx),
        (join_plain _ _ Hname). cbn [anchor]. by rewrite Hcwd. }
    rewrite (join_plain _ _ Hx), (join_plain _ _ Hname) in Hl'.
    cbn [parts] in Hl'. apply prefix_snoc_cases in Hl' as [Hl' | ->].
    - left. rewrite Hk. by apply prefix_app.
    - right. by rewrite Hk, <- !app_assoc. }
  pose proof (Hstep _ _ _ _ plain_scripts eq_refl Hmk1) as Ha1.
  pose proof (Hstep _ _ _ _ plain_references (proj1 Hg1) Hmk2) as Ha2.
  pose proof (Hstep _ _ _ _ plain_assets (proj1 Hg12) Hmk3) as Ha3.
  eapply adds_dirs_trans; [| | exact (proj2 Hg3)].
  - eapply adds_dirs_trans; [| | exact (proj2 Hg2)].
    + eapply adds_dirs_weaken; [| exact Ha1]. intros ? [|]; auto.
    + eapply adds_dirs_weaken; [| exact Ha2]. intros ? [|]; auto.
  - eapply adds_dirs_weaken; [| exact Ha3]. intros ? [|]; auto.
Qed.

(** The effect of a run that returns, for an accepted kind of output
    path: the skill directory was not there, afterwards it holds the tree
    of the skill and nothing else, and everything else that changed is a
    directory above the skill directory that was missing. *)
Lemma scaffolding_effect (skill_name : string) (output_path : Path)
      (w w' : world) :
  plain_name skill_name -> fs_wf (fs w) -> usual_output_path w output_path ->
  create_skill_directory skill_name output_path w = (Return tt, w') ->
  exists k,
    Fs.resolve w' (output_path // skill_name) = inr k /\
    grows w w' /\
    Fs.get (fs w) k = None /\
    (forall rel, Fs.get (fs w') (k ++ rel) = skill_tree skill_name !! rel) /\
    (forall k', ~ k `prefix_of` k' ->
                Fs.get (fs w') k' <> Fs.get (fs w) k' ->
                Fs.get (fs w) k' = None /\ Fs.get (fs w') k' = Some Dir /\
                k' `prefix_of` k).
Proof.
  intros Hname Hwf Husual Hrun.
  destruct (scaffold_run_detail _ _ _ _ Hname Hrun)
    as (k & w1 & w2 & w3 & Hex & Hmk1 & Hmk2 & Hmk3 & Hsd & Hk & Hks & Hkr
        & Hka & Hfiles & Hg).
  exists k. split; [by apply (grows_resolve _ _ _ _ Hg) |].
  assert (k <> []) as Hnil.
  { apply (resolve_join_inv _ _ _ _ Hname) in Hsd as (? & _ & _ & ->).
    apply snoc_not_nil. }
  assert (grows w w') as Hgw.
  { pose proof (mkdir_parents_returns _ _ _ _ Hmk1) as [Hg1 _].
    pose proof (mkdir_parents_returns _ _ _ _ Hmk2) as [Hg2 _].
    pose proof (mkdir_parents_returns _ _ _ _ Hmk3) as [Hg3 _].
    exact (grows_trans _ _ _ (grows_trans _ _ _ (grows_trans _ _ _ Hg1 Hg2) Hg3)
             Hg). }
  split; [done |].
  destruct Husual as [Hplain | (k0 & Hout & Hdir)].
  - (* the output path is written without [..] *)
    destruct (scaffold_dirs_added _ _ _ _ _ _ _ Hname Hplain Hmk1 Hmk2 Hmk3 Hsd)
      as (Hg3 & Hkeq & Hadds).
    assert (Fs.get (fs w) k = None) as Hnew.
    { apply path_exists_false_absent in Hex; [| done |].
      - rewrite Hkeq. revert Hex. rewrite (join_plain _ _ Hname).
        unfold Fs.start. by cbn [anchor parts].
      - rewrite (join_plain _ _ Hname). by apply no_dotdot_snoc_plain. }
    pose proof (fun rel => wf_absent_below _ _ rel Hwf Hnew) as Habs.
    assert (forall rel, rel <> [] -> rel <> ["scripts"] ->
                        rel <> ["references"] -> rel <> ["assets"] ->
                        Fs.get (fs w3) (k ++ rel) = None) as Hrest.
    { intros rel H0 H1 H2 H3. rewrite <- (Habs rel).
      destruct (decide (Fs.get (fs w3) (k ++ rel) = Fs.get (fs w) (k ++ rel)))
        as [Heq|Hne]; [done |].
      destruct (Hadds _ Hne) as (_ & _ & [Hpre | [Heq | [Heq | Heq]]]).
      - destruct rel as [|c rel]; [done |].
        apply prefix_length in Hpre. rewrite length_app in Hpre.
        simpl in Hpre. lia.
      - by apply app_inv_head in Heq.
      - by apply app_inv_head in Heq.
      - by apply app_inv_head in Heq. }
    split; [done |]. split.
    + intros rel. rewrite <- (scaffolded_inside skill_name k (fs w) rel).
      2:{ rewrite <- get_nonempty by (by destruct k). apply Habs. }
      rewrite <- (get_nonempty (scaffolded _ _ _)) by (by destruct k).
      assert (Fs.get (fs w3) (k ++ rel)
              = Fs.get (<[k ++ ["assets"] := Dir]>
                          (<[k ++ ["references"] := Dir]>
                             (<[k ++ ["scripts"] := Dir]>
                                (<[k := Dir]> (fs w))))) (k ++ rel)) as Hdirs.
      { destruct (decide (rel = [])) as [->|H0].
        { rewrite app_nil_r. solve_get. }
        destruct (decide (rel = ["scripts"])) as [->|H1]; [solve_get |].
        destruct (decide (rel = ["references"])) as [->|H2]; [solve_get |].
        destruct (decide (rel = ["assets"])) as [->|H3]; [solve_get |].
        rewrite (Hrest rel) by done.
        rewrite !get_insert_ne; [by rewrite Habs | ..].
        - intros Heq. rewrite <- (app_nil_r k) in Heq at 1.
          by apply app_inv_head in Heq.
        - by intros ?%app_inv_head.
        - by intros ?%app_inv_head.
        - by intros ?%app_inv_head. }
      unfold scaffolded, skill_files. cbn [foldl fst snd]. rewrite app_nil_r.
      destruct Hfiles as [[-> Hsome] | ->].
      * exfalso. revert Hsome. rewrite !get_insert_ne by key_neq.
        rewrite Hrest by done. by intros [? ?].
      * by do 4 apply get_insert_congr.
    + intros k' Hout' Hdiff.
      assert (Fs.get (fs w') k' = Fs.get (fs w3) k') as Heq.
      { destruct Hfiles as [[-> _] | ->];
          rewrite !get_insert_ne; try done;
          intros <-; apply Hout'; by apply prefix_app_r. }
      rewrite Heq in Hdiff |- *.
      destruct (Hadds _ Hdiff) as (Hnone & Hdir' & [Hpre | [-> | [-> | ->]]]);
        [done | exfalso; apply Hout'; by apply prefix_app_r ..].
  - (* the output path is an existing directory *)
    pose proof (resolve_join_dir _ _ _ _ Hname Hout Hdir) as Hsd0.
    pose proof (path_exists_false_inv _ _ _ _ Hex Hsd0) as Hnew.
    pose proof (create_skill_directory_fresh _ _ _ _ Hname Hwf Hout Hdir Hnew)
      as Hrun'.
    rewrite Hrun in Hrun'. injection Hrun' as ->. cbn [fs] in *.
    assert (k = k0 ++ [skill_name]) as ->.
    { pose proof (mkdir_parents_returns _ _ _ _ Hmk1) as [Hg1 _].
      pose proof (mkdir_parents_returns _ _ _ _ Hmk2) as [Hg2 _].
      pose proof (mkdir_parents_returns _ _ _ _ Hmk3) as [Hg3 _].
      pose proof (grows_trans _ _ _ (grows_trans _ _ _ Hg1 Hg2) Hg3) as Hg13.
      rewrite (grows_resolve _ _ _ _ Hg13 Hsd0) in Hsd. by injection Hsd. }
    pose proof (fun rel => wf_absent_below _ _ rel Hwf Hnew) as Habs.
    split; [done |]. split.
    + intros rel. rewrite get_nonempty by (by destruct k0).
      apply scaffolded_inside.
      rewrite <- get_nonempty by (by destruct k0). apply Habs.
    + intros k' Hout' Hdiff. exfalso. apply Hdiff.
      destruct k' as [|c k']; [done |]. cbn [Fs.get].
      by apply scaffolded_outside.
Qed.

(* ===================================================================== *)
(** * Properties: the validator *)
(* ===================================================================== *)

(** The violations of a directory whose manifest parses. *)
Lemma validate_parsed (w : world) (skill_dir : Path) (content : string)
      (m : Manifest) :
  FsExtra.read_file w (skill_dir // Validator.MANIFEST_NAME) = Some content ->
  Validator.parse_manifest content = Some m ->
  Validator.validate w skill_dir
  = Validator.result_of (Validator.content_rules w skill_dir m).
Proof. intros Hread Hparse. unfold Validator.validate. by rewrite Hread, Hparse. Qed.

(** A description with both brackets makes a manifest invalid. *)
Lemma placeholder_violation (w : world) (skill_dir : Path) (content : string)
      (m : Manifest) (d : string) :
  FsExtra.read_file w (skill_dir // Validator.MANIFEST_NAME) = Some content ->
  Validator.parse_manifest content = Some m ->
  Validator.description_of (frontmatter m) = Some d ->
  Validator.has_placeholder d = true ->
  DescriptionPlaceholder ∈ violations (Validator.validate w skill_dir) /\
  isValid (Validator.validate w skill_dir) = false.
Proof.
  intros Hread Hparse Hd Hph.
  rewrite (validate_parsed _ _ _ _ Hread Hparse).
  cbn [violations Validator.result_of].
  assert (DescriptionPlaceholder
            ∈ Validator.content_rules w skill_dir m) as Hin.
  { unfold Validator.content_rules, Validator.check_description.
    rewrite Hd, Hph, !elem_of_app. right. left. right.
    by apply list_elem_of_singleton. }
  split; [done |].
  destruct (Validator.content_rules w skill_dir m); [| done].
  by apply elem_of_nil in Hin.
Qed.

(* ===================================================================== *)
(** * Scaffolding onto an existing target (C2) *)
(* ===================================================================== *)

(** C2.  When the target [output_path / skill_name] already exists,
    [create_skill_directory] prints one line on the standard error and
    leaves through [sys.exit(1)], a non-zero status; the file system, the
    working directory and the standard output are as they were. *)
Theorem C2_existing_target_exits_unchanged
        (skill_name : string) (output_path : Path) (w : world) (k : key) :
  Fs.resolve w (output_path // skill_name) = inr k ->
  is_Some (Fs.get (fs w) k) ->
  exists w',
    create_skill_directory skill_name output_path w = (SysExit 1, w') /\
    (1 <> 0)%Z /\
    fs w' = fs w /\ cwd w' = cwd w /\ stdout w' = stdout w /\
    stderr w' = stderr w ++
      ["Error: Directory '" +:+ PurePath.to_str (output_path // skill_name)
       +:+ "' already exists."].
Proof.
  intros Hres [v Hv]. eexists. split.
  - unfold create_skill_directory.
    erewrite bind_return; cycle 1.
    { unfold Fs.path_exists. rewrite Hres, Hv. reflexivity. }
    reflexivity.
  - done.
Qed.

Lemma C2_existing_target_witness :
  exists w',
    create_skill_directory "demo" here demo_world = (SysExit 1, w') /\
    (1 <> 0)%Z /\
    fs w' = fs demo_world /\ cwd w' = cwd demo_world /\
    stdout w' = stdout demo_world /\
    stderr w' = stderr demo_world ++
      ["Error: Directory '" +:+ PurePath.to_str (here // "demo")
       +:+ "' already exists."].
Proof.
  apply (C2_existing_target_exits_unchanged "demo" here demo_world
           ["home"; "demo"]).
  - vm_compute. reflexivity.
  - exists Dir. vm_compute. reflexivity.
Defined.

(* ===================================================================== *)
(** * The scaffolded manifest (C3, C4) *)
(* ===================================================================== *)

(** The manifest the scaffolding writes parses for every accepted name:
    its frontmatter is the [name:] line, an empty line when the name ends
    in a newline, and the [description:] line. *)
Lemma parse_skill_md (skill_name : string) :
  validate_skill_name skill_name = true ->
  exists a extra,
    well_formed_name a = true /\
    ((skill_name = a /\ extra = []) \/
     (skill_name = a +:+ String Str.nl "" /\ extra = [""])) /\
    Validator.parse_manifest (skill_md_text skill_name)
    = Some {| frontmatter :=
                ("name: " +:+ a) :: extra
                ++ ["description: " +:+ DESCRIPTION_PLACEHOLDER];
              body := skill_body_text skill_name |}.
Proof.
  intros (a & Ha & Hcases)%accepted_lines.
  unfold Validator.parse_manifest. rewrite skill_md_lines.
  rewrite (lines_append_plain "name: " skill_name) by reflexivity.
  pose proof (unlines_lines (skill_body_text skill_name)) as Hbody.
  destruct Hcases as [[Hn Hl] | [Hn Hl]]; rewrite Hl;
    [exists a, [] | exists a, [""] ];
    (split; [done |]); (split; [auto |]);
    revert Hbody; generalize (Str.lines (skill_body_text skill_name));
    intros bl Hbody; cbn [app]; rewrite <- Hbody; reflexivity.
Qed.

Lemma description_of_skill_md (a : string) (extra : list string) :
  extra = [] \/ extra = [""] ->
  Validator.description_of
    (("name: " +:+ a) :: extra ++ ["description: " +:+ DESCRIPTION_PLACEHOLDER])
  = Some (" " +:+ DESCRIPTION_PLACEHOLDER).
Proof. intros [-> | ->]; reflexivity. Qed.

(** The manifest of a scaffolded skill directory can be read back. *)
Lemma read_scaffolded_manifest (skill_name : string) (output_path : Path)
      (w w' : world) :
  plain_name skill_name ->
  create_skill_directory skill_name output_path w = (Return tt, w') ->
  FsExtra.read_file w' (output_path // skill_name // "SKILL.md")
  = Some (skill_md_text skill_name).
Proof.
  intros Hname Hrun.
  destruct (create_skill_directory_returns _ _ _ _ Hname Hrun)
    as (k & Hres & Hk & _ & _ & _ & Hmd & _).
  unfold FsExtra.read_file.
  by rewrite (resolve_join_dir _ _ _ _ plain_skill_md Hres Hk), Hmd.
Qed.

(** For an accepted name the scaffolded manifest has the shape C3 asks
    for exactly when the name is well formed, that is, when it does not
    end in a newline. *)
Lemma manifest_shape_iff (skill_name : string) :
  validate_skill_name skill_name = true ->
  manifest_shape (skill_md_text skill_name) skill_name <->
  well_formed_name skill_name = true.
Proof.
  intros Hacc. split.
  - intros (d & bl & Hlines & _).
    apply (accepted_without_newline _ Hacc).
    assert (("name: " +:+ skill_name) ∈ Str.lines (skill_md_text skill_name))
      as Hin by (rewrite Hlines; set_solver).
    apply lines_no_newline in Hin. by rewrite mem_append in Hin.
  - intros Hwf. exists DESCRIPTION_PLACEHOLDER.
    exists (Str.lines (skill_body_text skill_name)). split.
    + rewrite skill_md_lines, lines_plain; [done |].
      rewrite mem_append. by rewrite (well_formed_no_newline _ Hwf).
    + rewrite unlines_lines. apply skill_body_not_empty.
Qed.

(** What C3 asks for holds for every well-formed name: scaffolding into
    an existing directory that has no entry of that name returns and
    leaves the skill directory, its three subdirectories, and a manifest
    of the required shape. *)
Lemma scaffolding_creates_skill (skill_name : string) (output_path : Path)
      (w : world) (k : key) :
  well_formed_name skill_name = true -> fs_wf (fs w) ->
  Fs.resolve w output_path = inr k -> Fs.get (fs w) k = Some Dir ->
  Fs.get (fs w) (k ++ [skill_name]) = None ->
  exists w' sk,
    create_skill_directory skill_name output_path w = (Return tt, w') /\
    Fs.resolve w' (output_path // skill_name) = inr sk /\
    skill_directory_at skill_name (fs w') sk /\
    FsExtra.read_file w' (output_path // skill_name // "SKILL.md")
    = Some (skill_md_text skill_name) /\
    manifest_shape (skill_md_text skill_name) skill_name.
Proof.
  intros Hwf Hfs Hout Hdir Hnew.
  pose proof (well_formed_accepted _ Hwf) as Hacc.
  pose proof (accepted_plain _ Hacc) as Hplain.
  pose proof (create_skill_directory_fresh _ _ _ _ Hplain Hfs Hout Hdir Hnew)
    as Hrun.
  destruct (create_skill_directory_returns _ _ _ _ Hplain Hrun)
    as (sk & Hres & Hat).
  eexists _, sk. split; [exact Hrun |]. split; [exact Hres |].
  split; [exact Hat |]. split.
  - exact (read_scaffolded_manifest _ _ _ _ Hplain Hrun).
  - by apply manifest_shape_iff.
Qed.

(** C3.  The name ["a\n"] passes the name check, and its scaffolding
    returns; but the manifest written for it has the line [name: a]
    followed by an empty line: no line of the file is [name:] with the
    skill name as its value, so the manifest does not have the shape
    that C3 states for every accepted name. *)
Theorem C3_newline_name_breaks_name_line :
  validate_skill_name name_with_newline = true /\
  (exists w',
     create_skill_directory name_with_newline here home_world = (Return tt, w') /\
     FsExtra.read_file w' (here // name_with_newline // "SKILL.md")
     = Some (skill_md_text name_with_newline)) /\
  take 5 (Str.lines (skill_md_text name_with_newline))
  = ["---"; "name: a"; ""; "description: " +:+ DESCRIPTION_PLACEHOLDER; "---"] /\
  (("name: " +:+ name_with_newline)
     ∉ Str.lines (skill_md_text name_with_newline)) /\
  ~ manifest_shape (skill_md_text name_with_newline) name_with_newline.
Proof.
  split; [reflexivity |]. split.
  { eexists. split; [vm_compute; reflexivity |]. vm_compute. reflexivity. }
  split; [vm_compute; reflexivity |]. split.
  - intros Hin%lines_no_newline. discriminate Hin.
  - intros Hshape%manifest_shape_iff; [discriminate Hshape | reflexivity].
Qed.

(** C4.  Whenever the scaffolding of an accepted name returns, the
    manifest it wrote parses, the value of its [description:] line is the
    placeholder of the template, which holds both [[] and []], and the
    validator rejects the fresh skill directory with the placeholder
    violation. *)
Theorem C4_fresh_skill_keeps_placeholder_description
        (skill_name : string) (output_path : Path) (w w' : world) :
  validate_skill_name skill_name = true ->
  create_skill_directory skill_name output_path w = (Return tt, w') ->
  exists m,
    FsExtra.read_file w' (output_path // skill_name // Validator.MANIFEST_NAME)
    = Some (skill_md_text skill_name) /\
    Validator.parse_manifest (skill_md_text skill_name) = Some m /\
    Validator.description_of (frontmatter m)
    = Some (" " +:+ DESCRIPTION_PLACEHOLDER) /\
    Str.strip (" " +:+ DESCRIPTION_PLACEHOLDER) = DESCRIPTION_PLACEHOLDER /\
    Str.mem "[" DESCRIPTION_PLACEHOLDER = true /\
    Str.mem "]" DESCRIPTION_PLACEHOLDER = true /\
    DescriptionPlaceholder
      ∈ violations (Validator.validate w' (output_path // skill_name)) /\
    isValid (Validator.validate w' (output_path // skill_name)) = false.
Proof.
  intros Hname Hrun.
  pose proof (read_scaffolded_manifest _ _ _ _ (accepted_plain _ Hname) Hrun)
    as Hread.
  destruct (parse_skill_md _ Hname) as (a & extra & _ & Hextra & Hparse).
  assert (extra = [] \/ extra = [""]) as Hextra' by (destruct Hextra; tauto).
  pose proof (description_of_skill_md a extra Hextra') as Hdesc.
  eexists. split; [exact Hread |]. split; [exact Hparse |].
  split; [exact Hdesc |].
  split; [reflexivity |]. split; [reflexivity |]. split; [reflexivity |].
  apply (placeholder_violation _ _ _ _ _ Hread Hparse Hdesc). reflexivity.
Qed.

Lemma C4_fresh_skill_witness :
  exists m,
    FsExtra.read_file demo_world (here // "demo" // Validator.MANIFEST_NAME)
    = Some (skill_md_text "demo") /\
    Validator.parse_manifest (skill_md_text "demo") = Some m /\
    Validator.description_of (frontmatter m)
    = Some (" " +:+ DESCRIPTION_PLACEHOLDER) /\
    Str.strip (" " +:+ DESCRIPTION_PLACEHOLDER) = DESCRIPTION_PLACEHOLDER /\
    Str.mem "[" DESCRIPTION_PLACEHOLDER = true /\
    Str.mem "]" DESCRIPTION_PLACEHOLDER = true /\
    DescriptionPlaceholder
      ∈ violations (Validator.validate demo_world (here // "demo")) /\
    isValid (Validator.validate demo_world (here // "demo")) = false.
Proof.
  apply (C4_fresh_skill_keeps_placeholder_description
           "demo" here home_world demo_world).
  - vm_compute. reflexivity.
  - vm_compute. reflexivity.
Defined.

(* ===================================================================== *)
(** * The validator (C5, C6, C7) *)
(* ===================================================================== *)

(** C5.  When the manifest file is not there, [validate] answers with
    [isValid] false and exactly one violation, that of the manifest
    presence rule; no other rule contributes, whatever else the directory
    holds. *)
Theorem C5_missing_manifest_single_violation (w : world) (skill_dir : Path) :
  FsExtra.read_file w (skill_dir // Validator.MANIFEST_NAME) = None ->
  isValid (Validator.validate w skill_dir) = false /\
  violations (Validator.validate w skill_dir) = [ManifestMissing] /\
  length (violations (Validator.validate w skill_dir)) = 1.
Proof. intros Hread. unfold Validator.validate. by rewrite Hread. Qed.

Lemma C5_missing_manifest_witness :
  isValid (Validator.validate home_world demo_dir) = false /\
  violations (Validator.validate home_world demo_dir) = [ManifestMissing] /\
  length (violations (Validator.validate home_world demo_dir)) = 1.
Proof.
  apply (C5_missing_manifest_single_violation home_world demo_dir).
  vm_compute. reflexivity.
Defined.

(** C6.  A description that is present and whose trimmed text holds both
    [[] and []] draws the placeholder violation whatever its length; when
    its trimmed text is also shorter than 50 characters the length
    violation is drawn as well, before it, so that both stand in the same
    result. *)
Theorem C6_placeholder_independent_of_length
        (w : world) (skill_dir : Path) (content : string) (m : Manifest)
        (d : string) :
  FsExtra.read_file w (skill_dir // Validator.MANIFEST_NAME) = Some content ->
  Validator.parse_manifest content = Some m ->
  Validator.description_of (frontmatter m) = Some d ->
  Str.mem "[" (Str.strip d) = true -> Str.mem "]" (Str.strip d) = true ->
  DescriptionPlaceholder ∈ violations (Validator.validate w skill_dir) /\
  isValid (Validator.validate w skill_dir) = false /\
  (String.length (Str.strip d) < 50 ->
   exists pre post,
     violations (Validator.validate w skill_dir)
     = pre ++ [DescriptionTooShort (String.length (Str.strip d)) 50;
               DescriptionPlaceholder] ++ post) /\
  (50 <= String.length (Str.strip d) ->
   forall a r, DescriptionTooShort a r ∉ violations (Validator.validate w skill_dir)).
Proof.
  intros Hread Hparse Hd Hopen Hclose.
  rewrite (validate_parsed _ _ _ _ Hread Hparse). cbn [violations Validator.result_of].
  assert (Validator.has_placeholder d = true) as Hph.
  { unfold Validator.has_placeholder. by rewrite Hopen, Hclose. }
  assert (DescriptionPlaceholder ∈ Validator.check_description (frontmatter m))
    as Hin.
  { unfold Validator.check_description. rewrite Hd, Hph.
    apply elem_of_app. right. by apply list_elem_of_singleton. }
  unfold Validator.content_rules. split; [| split; [| split]].
  - rewrite !elem_of_app. auto.
  - destruct (_ ++ _) eqn:Hvs; [| done].
    apply app_eq_nil in Hvs as [_ Hvs]. apply app_eq_nil in Hvs as [Hvs _].
    rewrite Hvs in Hin. by apply elem_of_nil in Hin.
  - intros Hshort. exists (Validator.check_name (frontmatter m)).
    eexists. f_equal. unfold Validator.check_description. rewrite Hd, Hph.
    unfold Validator.MIN_DESCRIPTION_LENGTH.
    destruct (Nat.ltb_spec (String.length (Str.strip d)) 50); [| lia].
    rewrite <- app_assoc. reflexivity.
  - intros Hlong a r. rewrite !elem_of_app.
    unfold Validator.check_description. rewrite Hd, Hph.
    unfold Validator.MIN_DESCRIPTION_LENGTH.
    destruct (Nat.ltb_spec (String.length (Str.strip d)) 50); [lia |].
    unfold Validator.check_name, Validator.check_body, Validator.check_forbidden.
    intros [Hn | [Hdsc | [Hb | Hf]]].
    + destruct (Validator.find_field _ _); [destruct (String.eqb _ _) |];
        repeat (apply elem_of_cons in Hn as [Hn | Hn]; [done |]);
        by apply elem_of_nil in Hn.
    + cbn [app] in Hdsc. apply list_elem_of_singleton in Hdsc. done.
    + destruct (_ <? _);
        repeat (apply elem_of_cons in Hb as [Hb | Hb]; [done |]);
        by apply elem_of_nil in Hb.
    + apply list_elem_of_In, in_flat_map in Hf as (f & _ & Hf).
      destruct (FsExtra.exists_at _ _); [| done].
      destruct Hf as [Hf | []]. done.
Qed.

Lemma C6_placeholder_witness :
  let w := manifest_world "[x]" (replicate_char 120 "b") in
  let d := " [x]" in
  DescriptionPlaceholder ∈ violations (Validator.validate w demo_dir) /\
  isValid (Validator.validate w demo_dir) = false /\
  (String.length (Str.strip d) < 50 ->
   exists pre post,
     violations (Validator.validate w demo_dir)
     = pre ++ [DescriptionTooShort (String.length (Str.strip d)) 50;
               DescriptionPlaceholder] ++ post) /\
  (50 <= String.length (Str.strip d) ->
   forall a r, DescriptionTooShort a r ∉ violations (Validator.validate w demo_dir)).
Proof.
  intros w d.
  apply (C6_placeholder_independent_of_length w demo_dir
           (manifest_text "[x]" (replicate_char 120 "b"))
           {| frontmatter := ["name: demo"; "description: [x]"];
              body := replicate_char 120 "b" |} d).
  - vm_compute. reflexivity.
  - vm_compute. reflexivity.
  - vm_compute. reflexivity.
  - vm_compute. reflexivity.
  - vm_compute. reflexivity.
Defined.

Lemma not_body_too_short_others (w : world) (skill_dir : Path) (fm : list string)
      (a r : nat) :
  (BodyTooShort a r ∉ Validator.check_name fm) /\
  (BodyTooShort a r ∉ Validator.check_description fm) /\
  (BodyTooShort a r ∉ Validator.check_forbidden w skill_dir).
Proof.
  split; [| split].
  - unfold Validator.check_name. intros Hn.
    destruct (Validator.find_field _ _); [destruct (String.eqb _ _) |];
      repeat (apply elem_of_cons in Hn as [Hn | Hn]; [done |]);
      by apply elem_of_nil in Hn.
  - unfold Validator.check_description. intros Hd.
    destruct (Validator.description_of fm).
    + apply elem_of_app in Hd as [Hd | Hd].
      * destruct (_ <? _);
          repeat (apply elem_of_cons in Hd as [Hd | Hd]; [done |]);
          by apply elem_of_nil in Hd.
      * destruct (Validator.has_placeholder _);
          repeat (apply elem_of_cons in Hd as [Hd | Hd]; [done |]);
          by apply elem_of_nil in Hd.
    + apply list_elem_of_singleton in Hd. done.
  - unfold Validator.check_forbidden.
    intros (f & _ & Hf)%list_elem_of_In%in_flat_map.
    destruct (FsExtra.exists_at _ _); [| done].
    destruct Hf as [Hf | []]. done.
Qed.

(** C7.  For a manifest that parses, a body-length violation is in the
    result exactly when the body after the closing fence, trimmed, is
    shorter than 100 characters; the violation reports the actual and the
    required length.  So a trimmed body of 100 characters draws none and
    one of 99 characters draws one. *)
Theorem C7_body_length_boundary
        (w : world) (skill_dir : Path) (content : string) (m : Manifest) :
  FsExtra.read_file w (skill_dir // Validator.MANIFEST_NAME) = Some content ->
  Validator.parse_manifest content = Some m ->
  let n := String.length (Str.strip (body m)) in
  let vs := violations (Validator.validate w skill_dir) in
  ((exists a r, BodyTooShort a r ∈ vs) <-> n < 100) /\
  (n < 100 -> BodyTooShort n 100 ∈ vs) /\
  (n = 100 -> forall a r, BodyTooShort a r ∉ vs) /\
  (n = 99 -> BodyTooShort 99 100 ∈ vs).
Proof.
  intros Hread Hparse n vs. subst vs.
  rewrite (validate_parsed _ _ _ _ Hread Hparse).
  cbn [violations Validator.result_of]. unfold Validator.content_rules.
  assert (forall a r,
    BodyTooShort a r ∈ Validator.check_name (frontmatter m)
      ++ Validator.check_description (frontmatter m)
      ++ Validator.check_body (body m) ++ Validator.check_forbidden w skill_dir
    <-> BodyTooShort a r ∈ Validator.check_body (body m)) as Hiff.
  { intros a r. rewrite !elem_of_app.
    destruct (not_body_too_short_others w skill_dir (frontmatter m) a r)
      as (H1 & H2 & H3). tauto. }
  assert (forall a r, BodyTooShort a r ∈ Validator.check_body (body m)
                      <-> n < 100 /\ a = n /\ r = 100) as Hbody.
  { intros a r. unfold Validator.check_body, Validator.MIN_BODY_LENGTH.
    fold n. destruct (Nat.ltb_spec n 100).
    - rewrite list_elem_of_singleton. split.
      + intros [= -> ->]. done.
      + intros (_ & -> & ->). done.
    - split; [by intros ?%elem_of_nil | lia]. }
  split; [| split; [| split]].
  - split.
    + intros (a & r & Hin). apply Hiff, Hbody in Hin. tauto.
    + intros Hlt. exists n, 100. apply Hiff, Hbody. done.
  - intros Hlt. apply Hiff, Hbody. done.
  - intros Heq a r Hin. apply Hiff, Hbody in Hin. lia.
  - intros Heq. apply Hiff, Hbody. lia.
Qed.

Lemma C7_body_length_witness :
  let w := manifest_world (replicate_char 60 "d") (replicate_char 99 "b") in
  let n := String.length (Str.strip (replicate_char 99 "b")) in
  let vs := violations (Validator.validate w demo_dir) in
  ((exists a r, BodyTooShort a r ∈ vs) <-> n < 100) /\
  (n < 100 -> BodyTooShort n 100 ∈ vs) /\
  (n = 100 -> forall a r, BodyTooShort a r ∉ vs) /\
  (n = 99 -> BodyTooShort 99 100 ∈ vs).
Proof.
  intros w.
  apply (C7_body_length_boundary w demo_dir
           (manifest_text (replicate_char 60 "d") (replicate_char 99 "b"))
           {| frontmatter :=
                ["name: demo"; "description: " +:+ replicate_char 60 "d"];
              body := replicate_char 99 "b" |}).
  - vm_compute. reflexivity.
  - vm_compute. reflexivity.
Defined.

(** The two sides of the boundary, run. *)
Example body_of_100_characters_passes :
  violations (Validator.validate
    (manifest_world (replicate_char 60 "d") (replicate_char 100 "b")) demo_dir)
  = [].
Proof. vm_compute. reflexivity. Qed.

Example body_of_99_characters_fails :
  violations (Validator.validate
    (manifest_world (replicate_char 60 "d") (replicate_char 99 "b")) demo_dir)
  = [BodyTooShort 99 100].
Proof. vm_compute. reflexivity. Qed.

(* ===================================================================== *)
(** * The packager (C8) *)
(* ===================================================================== *)

Lemma report_keeps_files (describe : violation -> string)
      (vs : list violation) (w : world) :
  exists w', report describe vs w = (Return tt, w') /\
             fs w' = fs w /\ cwd w' = cwd w /\ stderr w' = stderr w.
Proof.
  revert w. induction vs as [|v vs IH]; intros w.
  - by exists w.
  - cbn [report]. unfold mbind, prog_bind, print.
    destruct (IH {| fs := fs w; cwd := cwd w;
                    stdout := stdout w ++ ["Validation error: " +:+ describe v];
                    stderr := stderr w |}) as (w' & Hrun & Hfs & Hcwd & Herr).
    exists w'. by rewrite Hrun.
Qed.

(** C8.  Packaging a directory that fails validation stops with a
    non-zero status after the violations are reported; the file system is
    left as it was, so no file appears in the output directory and a file
    already at the target path keeps its content. *)
Theorem C8_invalid_directory_not_packaged
        (describe : violation -> string)
        (compress : string -> list (key * node) -> string)
        (skill_dir output_dir : Path) (w : world) :
  isValid (Validator.validate w skill_dir) = false ->
  exists w',
    package describe compress skill_dir output_dir w = (SysExit 1, w') /\
    fs w' = fs w /\
    (forall k, Fs.get (fs w') k = Fs.get (fs w) k) /\
    (forall p, FsExtra.read_file w' p = FsExtra.read_file w p) /\
    (forall p, FsExtra.exists_at w' p = FsExtra.exists_at w p).
Proof.
  intros Hinvalid. unfold package. rewrite Hinvalid.
  destruct (report_keeps_files describe
              (violations (Validator.validate w skill_dir)) w)
    as (w' & Hrun & Hfs & Hcwd & _).
  exists w'. split.
  - unfold mbind, prog_bind. by rewrite Hrun.
  - split; [done |]. split; [by rewrite Hfs |].
    unfold FsExtra.read_file, FsExtra.exists_at, Fs.resolve, Fs.start, Fs.origin.
    rewrite Hfs, Hcwd. done.
Qed.

Lemma C8_invalid_directory_witness :
  exists w',
    package (fun _ => "violation") (fun _ _ => "archive")
            (here // "demo") (PurePath.parse "dist") demo_world
    = (SysExit 1, w') /\
    fs w' = fs demo_world /\
    (forall k, Fs.get (fs w') k = Fs.get (fs demo_world) k) /\
    (forall p, FsExtra.read_file w' p = FsExtra.read_file demo_world p) /\
    (forall p, FsExtra.exists_at w' p = FsExtra.exists_at demo_world p).
Proof.
  apply (C8_invalid_directory_not_packaged
           (fun _ => "violation") (fun _ _ => "archive")
           (here // "demo") (PurePath.parse "dist") demo_world).
  vm_compute. reflexivity.
Defined.

(* ===================================================================== *)
(** * What a scaffolding run touches (C9, C10) *)
(* ===================================================================== *)

(** The claim of C9 as it stands fails when the output path does not
    exist: [mkdir(parents=True)] makes the output directory too, and that
    directory is not inside the skill directory. *)
Lemma C9_missing_output_directory_is_created :
  ~ touches_only_inside "demo" (PurePath.parse "out") home_world.
Proof.
  intros Hclaim.
  destruct (Hclaim
              (create_skill_directory "demo" (PurePath.parse "out") home_world).2
              ltac:(vm_compute; reflexivity)
              ["home"; "out"]
              ltac:(vm_compute; discriminate))
    as (sk & Hres & [rel Hrel]).
  vm_compute in Hres. injection Hres as <-. discriminate Hrel.
Qed.

(** C9, amended.  When the scaffolding of an accepted name returns, for
    an output path that is an existing directory or is written without
    [..], every location whose content differs afterwards held nothing
    before, and it is the skill directory, lies inside it, or is a
    directory above it that was missing; when the output path is an
    existing directory, every such location is the skill directory or
    lies inside it.  So nothing is modified or deleted, and the only
    things made outside the skill directory are the missing directories of
    the output path. *)
Theorem C9_scaffolding_stays_in_skill_directory
        (skill_name : string) (output_path : Path) (w w' : world) :
  validate_skill_name skill_name = true -> fs_wf (fs w) ->
  usual_output_path w output_path ->
  create_skill_directory skill_name output_path w = (Return tt, w') ->
  exists sk,
    Fs.resolve w' (output_path // skill_name) = inr sk /\
    (forall k, Fs.get (fs w') k <> Fs.get (fs w) k ->
               Fs.get (fs w) k = None /\
               (sk `prefix_of` k \/
                (k `prefix_of` sk /\ Fs.get (fs w') k = Some Dir))) /\
    (forall k0, Fs.resolve w output_path = inr k0 ->
                Fs.get (fs w) k0 = Some Dir ->
                sk = k0 ++ [skill_name] /\
                forall k, Fs.get (fs w') k <> Fs.get (fs w) k ->
                          sk `prefix_of` k).
Proof.
  intros Hname%accepted_plain Hwf Husual Hrun.
  destruct (scaffolding_effect _ _ _ _ Hname Hwf Husual Hrun)
    as (sk & Hres & Hg & Hnew & _ & Hout).
  pose proof (fun rel => wf_absent_below _ _ rel Hwf Hnew) as Habs.
  assert (forall k, Fs.get (fs w') k <> Fs.get (fs w) k ->
                    Fs.get (fs w) k = None /\
                    (sk `prefix_of` k \/
                     (k `prefix_of` sk /\ Fs.get (fs w') k = Some Dir)))
    as Hchanges.
  { intros k Hdiff.
    destruct (decide (sk `prefix_of` k)) as [[rel ->] | Hnot].
    - split; [apply Habs | left; by exists rel].
    - destruct (Hout _ Hnot Hdiff) as (? & ? & ?). auto. }
  exists sk. split; [done |]. split; [done |].
  intros k0 Hres0 Hdir0.
  assert (sk = k0 ++ [skill_name]) as ->.
  { pose proof (grows_resolve _ _ _ _ Hg Hres0) as Hres0'.
    pose proof (grows_dir _ _ _ Hg Hdir0) as Hdir0'.
    rewrite (resolve_join_dir _ _ _ _ Hname Hres0' Hdir0') in Hres.
    by injection Hres. }
  split; [done |]. intros k Hdiff.
  destruct (Hchanges k Hdiff) as (Hnone & [Hin | [[rest Hrest] _]]); [done |].
  destruct rest as [|c rest _] using rev_ind.
  - rewrite app_nil_r in Hrest. by subst k.
  - exfalso.
    rewrite app_assoc in Hrest. apply app_inj_tail in Hrest as [-> _].
    destruct rest as [|d rest].
    + rewrite app_nil_r in Hdir0. by rewrite Hnone in Hdir0.
    + assert (Fs.get (fs w) k = Some Dir) as Hk; [| by rewrite Hk in Hnone].
      apply (wf_prefix_dir _ k d rest Hwf).
      destruct (k ++ d :: rest) eqn:E; [by destruct k |].
      cbn [Fs.get] in Hdir0. by rewrite Hdir0.
Qed.

Lemma C9_scaffolding_frame_witness :
  exists sk,
    Fs.resolve
      (create_skill_directory "demo" (PurePath.parse "skills") server_world).2
      (PurePath.parse "skills" // "demo") = inr sk /\
    (forall k,
       Fs.get (fs (create_skill_directory "demo" (PurePath.parse "skills")
                     server_world).2) k
       <> Fs.get (fs server_world) k ->
       Fs.get (fs server_world) k = None /\
       (sk `prefix_of` k \/
        (k `prefix_of` sk /\
         Fs.get (fs (create_skill_directory "demo" (PurePath.parse "skills")
                       server_world).2) k = Some Dir))) /\
    (forall k0, Fs.resolve server_world (PurePath.parse "skills") = inr k0 ->
                Fs.get (fs server_world) k0 = Some Dir ->
                sk = k0 ++ ["demo"] /\
                forall k,
                  Fs.get (fs (create_skill_directory "demo"
                                (PurePath.parse "skills") server_world).2) k
                  <> Fs.get (fs server_world) k ->
                  sk `prefix_of` k).
Proof.
  apply (C9_scaffolding_stays_in_skill_directory
           "demo" (PurePath.parse "skills") server_world).
  - vm_compute. reflexivity.
  - apply fs_wf_b_sound. vm_compute. reflexivity.
  - left. vm_compute. intros Hin.
    repeat (apply elem_of_cons in Hin as [Hin | Hin]; [discriminate |]).
    by apply elem_of_nil in Hin.
  - vm_compute. reflexivity.
Defined.

(** The claim of C10 as it stands fails for an output path that leads
    through the target: scaffolding [demo] with the output path
    [demo/zzz/../..] makes [demo] and [demo/zzz] on the way, so the skill
    directory holds the extra directory [zzz], which the same name
    scaffolded in the working directory does not have. *)
Lemma C10_output_path_through_target :
  ~ same_tree_for_same_name "demo" here (PurePath.parse "demo/zzz/../..")
      home_world home_world.
Proof.
  intros Hclaim.
  specialize (Hclaim
    (create_skill_directory "demo" here home_world).2
    (create_skill_directory "demo" (PurePath.parse "demo/zzz/../..")
       home_world).2
    ["home"; "demo"] ["home"; "demo"]
    ltac:(vm_compute; reflexivity) ltac:(vm_compute; reflexivity)
    ltac:(vm_compute; reflexivity) ltac:(vm_compute; reflexivity)
    ltac:(vm_compute; reflexivity) ltac:(vm_compute; reflexivity)
    ["zzz"]).
  vm_compute in Hclaim. discriminate Hclaim.
Qed.

(** C10, amended.  Two runs of the scaffolding that return, with the same
    accepted name, each for an output path that is an existing directory
    or is written without [..], start from targets that were not there
    and leave the same tree in both skill directories: at every relative
    path the same kind of entry with the same content, which is
    [skill_tree] of the name and depends on nothing else. *)
Theorem C10_scaffolding_depends_on_name_only
        (skill_name : string)
        (output_path1 output_path2 : Path) (w1 w2 w1' w2' : world) :
  validate_skill_name skill_name = true ->
  fs_wf (fs w1) -> usual_output_path w1 output_path1 ->
  create_skill_directory skill_name output_path1 w1 = (Return tt, w1') ->
  fs_wf (fs w2) -> usual_output_path w2 output_path2 ->
  create_skill_directory skill_name output_path2 w2 = (Return tt, w2') ->
  exists k1 k2,
    Fs.resolve w1' (output_path1 // skill_name) = inr k1 /\
    Fs.resolve w2' (output_path2 // skill_name) = inr k2 /\
    Fs.get (fs w1) k1 = None /\ Fs.get (fs w2) k2 = None /\
    forall rel,
      Fs.get (fs w1') (k1 ++ rel) = skill_tree skill_name !! rel /\
      Fs.get (fs w2') (k2 ++ rel) = skill_tree skill_name !! rel /\
      Fs.get (fs w1') (k1 ++ rel) = Fs.get (fs w2') (k2 ++ rel).
Proof.
  intros Hname%accepted_plain Hwf1 Hout1 Hrun1 Hwf2 Hout2 Hrun2.
  destruct (scaffolding_effect _ _ _ _ Hname Hwf1 Hout1 Hrun1)
    as (k1 & Hres1 & _ & Hnew1 & Htree1 & _).
  destruct (scaffolding_effect _ _ _ _ Hname Hwf2 Hout2 Hrun2)
    as (k2 & Hres2 & _ & Hnew2 & Htree2 & _).
  exists k1, k2. do 4 (split; [done |]).
  intros rel. by rewrite Htree1, Htree2.
Qed.

Lemma C10_scaffolding_witness :
  let w1' := (create_skill_directory "demo" here home_world).2 in
  let w2' := (create_skill_directory "demo" (PurePath.parse "new/skills")
                server_world).2 in
  exists k1 k2,
    Fs.resolve w1' (here // "demo") = inr k1 /\
    Fs.resolve w2' (PurePath.parse "new/skills" // "demo") = inr k2 /\
    Fs.get (fs home_world) k1 = None /\ Fs.get (fs server_world) k2 = None /\
    forall rel,
      Fs.get (fs w1') (k1 ++ rel) = skill_tree "demo" !! rel /\
      Fs.get (fs w2') (k2 ++ rel) = skill_tree "demo" !! rel /\
      Fs.get (fs w1') (k1 ++ rel) = Fs.get (fs w2') (k2 ++ rel).
Proof.
  intros w1' w2'.
  apply (C10_scaffolding_depends_on_name_only
           "demo" here (PurePath.parse "new/skills") home_world server_world).
  - vm_compute. reflexivity.
  - apply fs_wf_b_sound. vm_compute. reflexivity.
  - right. exists ["home"]. split; vm_compute; reflexivity.
  - vm_compute. reflexivity.
  - apply fs_wf_b_sound. vm_compute. reflexivity.
  - left. vm_compute. intros Hin.
    repeat (apply elem_of_cons in Hin as [Hin | Hin]; [discriminate |]).
    by apply elem_of_nil in Hin.
  - vm_compute. reflexivity.
Defined.

(* ===================================================================== *)
(** * Properties: every run of the primitives *)
(* ===================================================================== *)

Lemma keeps_entries_refl (m : gmap key node) : keeps_entries m m.
Proof. by intros k. Qed.

Lemma keeps_entries_trans (m1 m2 m3 : gmap key node) :
  keeps_entries m1 m2 -> keeps_entries m2 m3 -> keeps_entries m1 m3.
Proof. intros H12 H23 k Hk. auto. Qed.

Lemma keeps_entries_insert (m : gmap key node) (k : key) (v : node) :
  keeps_entries m (<[k := v]> m).
Proof.
  intros k' Hk'. destruct k' as [|c k']; [done |]. cbn [Fs.get] in *.
  rewrite lookup_insert. by case_decide.
Qed.

Lemma fs_step_refl (w : world) : fs_step w w.
Proof.
  repeat split; [apply dir_mono_refl | apply keeps_entries_refl].
Qed.

Lemma fs_step_trans (w1 w2 w3 : world) :
  fs_step w1 w2 -> fs_step w2 w3 -> fs_step w1 w3.
Proof.
  intros (? & ? & ? & ? & ?) (? & ? & ? & ? & ?).
  repeat split; [congruence .. | by eapply dir_mono_trans
                 | by eapply keeps_entries_trans].
Qed.

Lemma fs_step_set_fs (w : world) (m : gmap key node) :
  dir_mono (fs w) m -> keeps_entries (fs w) m -> fs_step w (set_fs m w).
Proof. by repeat split. Qed.

Lemma fs_step_new_dir (w : world) (k : key) :
  fs_step w (set_fs (<[k := Dir]> (fs w)) w).
Proof.
  apply fs_step_set_fs; [apply dir_mono_insert_dir | apply keeps_entries_insert].
Qed.

Lemma fs_step_grows (w w1 : world) : fs_step w w1 -> grows w w1.
Proof. by intros (? & _ & _ & ? & _). Qed.

(** [exists()] reads only. *)
Lemma path_exists_any (p : Path) (w w1 : world) (r : outcome bool) :
  Fs.path_exists p w = (r, w1) -> w1 = w /\ exists b, r = Return b.
Proof.
  unfold Fs.path_exists. destruct (Fs.resolve w p) as [e|k].
  - intros [= <- <-]. eauto.
  - destruct (Fs.get (fs w) k); intros [= <- <-]; eauto.
Qed.

Lemma resolve_error_os (w : world) (p : Path) (e : exn) :
  Fs.resolve w p = inl e -> is_os_error e = true.
Proof.
  unfold Fs.resolve. generalize (Fs.start w p). generalize (parts p).
  induction l as [|c l IH]; intros cur; [done |]. cbn [Fs.walk].
  destruct (Fs.get (fs w) cur) as [[|?]|]; [apply IH | by intros [= <-] ..].
Qed.

Lemma os_mkdir_any (p : Path) (w w1 : world) (r : outcome unit) :
  Fs.os_mkdir p w = (r, w1) -> fs_step w w1 /\ quiet r.
Proof.
  unfold Fs.os_mkdir. destruct (Fs.resolve w p) as [e|k] eqn:Hres.
  - intros [= <- <-]. split; [apply fs_step_refl |].
    by apply resolve_error_os in Hres.
  - destruct (Fs.get (fs w) k); intros [= <- <-].
    + split; [apply fs_step_refl | done].
    + split; [apply fs_step_new_dir | done].
Qed.

Lemma mkdir_plain_any (p : Path) (exist_ok : bool) (w w1 : world)
      (r : outcome unit) :
  Fs.mkdir_plain p exist_ok w = (r, w1) -> fs_step w w1 /\ quiet r.
Proof.
  unfold Fs.mkdir_plain.
  destruct (Fs.os_mkdir p w) as [r0 w0] eqn:Hos.
  pose proof (os_mkdir_any _ _ _ _ Hos) as [Hstep Hq].
  destruct r0 as [[]|c|e]; [by intros [= <- <-] | done |].
  destruct e;
    [by intros [= <- <-]; split; [apply fs_step_refl |] | ..];
    destruct (Fs.is_dir p w) as [[[]|?|?] w2];
    destruct exist_ok; intros [= <- <-];
    (split; [apply fs_step_refl | done]).
Qed.

Lemma mkdir_parents_rev_any (a : string) (rp : list string) :
  forall (exist_ok : bool) (w w1 : world) (r : outcome unit),
  Fs.mkdir_parents_rev a rp exist_ok w = (r, w1) -> fs_step w w1 /\ quiet r.
Proof.
  induction rp as [|c rp IH]; intros exist_ok w w1 r;
    cbn [Fs.mkdir_parents_rev];
    destruct (Fs.os_mkdir _ w) as [r0 w0] eqn:Hos;
    pose proof (os_mkdir_any _ _ _ _ Hos) as [Hstep Hq].
  - destruct r0 as [[]|?|e]; [by intros [= <- <-] | done |].
    destruct e;
      [by intros [= <- <-]; split; [apply fs_step_refl |] | ..];
      destruct (Fs.is_dir _ w) as [[[]|?|?] w2];
      destruct exist_ok; intros [= <- <-];
      (split; [apply fs_step_refl | done]).
  - destruct r0 as [[]|?|e]; [by intros [= <- <-] | done |].
    destruct e.
    1:{ destruct (Fs.mkdir_parents_rev a rp true w) as [r2 w2] eqn:Hrec.
        destruct (IH _ _ _ _ Hrec) as [Hstep2 Hq2].
        destruct r2 as [[]|?|?]; [| done | by intros [= <- <-]].
        intros [Hstep3 Hq3]%mkdir_plain_any.
        split; [by eapply fs_step_trans | done]. }
    all: destruct (Fs.is_dir _ w) as [[[]|?|?] w2];
      destruct exist_ok; intros [= <- <-];
      (split; [apply fs_step_refl | done]).
Qed.

(** Every run of [mkdir]. *)
Lemma mkdir_any (p : Path) (parents exist_ok : bool) (w w1 : world)
      (r : outcome unit) :
  Fs.mkdir p parents exist_ok w = (r, w1) -> fs_step w w1 /\ quiet r.
Proof.
  unfold Fs.mkdir. destruct parents;
    [apply mkdir_parents_rev_any | apply mkdir_plain_any].
Qed.

(** Every run of [write_text]. *)
Lemma write_text_any (p : Path) (data : string) (w w1 : world)
      (r : outcome unit) :
  Fs.write_text p data w = (r, w1) -> fs_step w w1 /\ quiet r.
Proof.
  unfold Fs.write_text. destruct (Fs.resolve w p) as [e|k] eqn:Hres.
  - intros [= <- <-]. split; [apply fs_step_refl |].
    by apply resolve_error_os in Hres.
  - destruct (Fs.get (fs w) k) as [[|?]|] eqn:Hk; intros [= <- <-].
    + split; [apply fs_step_refl | done].
    + split; [| done]. apply fs_step_set_fs;
        [apply dir_mono_insert_file; by rewrite Hk
        | apply keeps_entries_insert].
    + split; [| done]. apply fs_step_set_fs;
        [apply dir_mono_insert_file; by rewrite Hk
        | apply keeps_entries_insert].
Qed.

(** Every run of [touch]. *)
Lemma touch_any (p : Path) (w w1 : world) (r : outcome unit) :
  Fs.touch p w = (r, w1) -> fs_step w w1 /\ quiet r.
Proof.
  unfold Fs.touch. destruct (Fs.resolve w p) as [e|k] eqn:Hres.
  - intros [= <- <-]. split; [apply fs_step_refl |].
    by apply resolve_error_os in Hres.
  - destruct (Fs.get (fs w) k) eqn:Hk; intros [= <- <-].
    + split; [apply fs_step_refl | done].
    + split; [| done]. apply fs_step_set_fs;
        [apply dir_mono_insert_file; by rewrite Hk
        | apply keeps_entries_insert].
Qed.

Lemma bind_cases {A B} (m : prog A) (f : A -> prog B) (w w' : world)
      (r : outcome B) :
  (m ≫= f) w = (r, w') ->
  (exists a w1, m w = (Return a, w1) /\ f a w1 = (r, w')) \/
  (exists c, m w = (SysExit c, w') /\ r = SysExit c) \/
  (exists e, m w = (Raise e, w') /\ r = Raise e).
Proof.
  unfold mbind, prog_bind. destruct (m w) as [[a|c|e] w1].
  - left. eauto.
  - intros [= <- <-]. right. left. eauto.
  - intros [= <- <-]. right. right. eauto.
Qed.

(* ===================================================================== *)
(** * Properties: every run of the scaffolding *)
(* ===================================================================== *)

Lemma path_exists_true_inv (p : Path) (w w1 : world) :
  Fs.path_exists p w = (Return true, w1) -> FsExtra.exists_at w p = true.
Proof.
  unfold Fs.path_exists, FsExtra.exists_at.
  destruct (Fs.resolve w p) as [e|k]; [done |].
  by destruct (Fs.get (fs w) k).
Qed.

(** One file-system primitive of a sequence: [Hacc] relates the first
    world to the current one. *)
Ltac fs_prim H lem Hacc :=
  let Hm := fresh "Hm" in
  let Hs := fresh "Hs" in
  let Hq := fresh "Hq" in
  let Hnew := fresh "Hnew" in
  apply bind_cases in H as [([] & ? & Hm & H) | [(? & Hm & ->) | (? & Hm & ->)]];
  apply lem in Hm as [Hs Hq];
  [ pose proof (fs_step_trans _ _ _ Hacc Hs) as Hnew; clear Hacc Hs Hq;
    rename Hnew into Hacc
  | done
  | split; [exact Hq | exact (fs_step_trans _ _ _ Hacc Hs)] ].

(** How any run of [create_skill_directory] ends.  A run that returns has
    printed the eight closing lines and nothing else; a run that exits
    does so with status 1, after one line on the standard error, with the
    file system untouched, and only because the target exists; a run that
    raises has printed nothing, and raises an error of the operating
    system. *)
Lemma create_skill_directory_outcome (skill_name : string)
      (output_path : Path) (w w' : world) (r : outcome unit) :
  create_skill_directory skill_name output_path w = (r, w') ->
  match r with
  | Return _ =>
      cwd w' = cwd w /\
      stdout w' = stdout w ++ next_steps (output_path // skill_name) /\
      stderr w' = stderr w /\
      dir_mono (fs w) (fs w') /\ keeps_entries (fs w) (fs w')
  | SysExit status =>
      status = 1%Z /\ fs w' = fs w /\ cwd w' = cwd w /\
      stdout w' = stdout w /\
      stderr w'
      = stderr w ++ [already_exists_message (output_path // skill_name)] /\
      FsExtra.exists_at w (output_path // skill_name) = true
  | Raise e => is_os_error e = true /\ fs_step w w'
  end.
Proof.
  intros Hrun. unfold create_skill_directory in Hrun.
  set (sd := output_path // skill_name) in *.
  apply bind_cases in Hrun
    as [(present & w0 & Hex & Hrun) | [(? & Hex & _) | (? & Hex & _)]];
    pose proof (path_exists_any _ _ _ _ Hex) as [-> [b Hb]];
    [| done | done].
  destruct present.
  { apply path_exists_true_inv in Hex.
    unfold mbind, prog_bind, print_stderr, sys_exit in Hrun.
    injection Hrun as <- <-. by cbn. }
  clear Hex b Hb.
  pose proof (fs_step_refl w) as Hacc.
  fs_prim Hrun mkdir_any Hacc.
  fs_prim Hrun mkdir_any Hacc.
  fs_prim Hrun mkdir_any Hacc.
  rewrite (bind_return _ _ _ _ _ (format_skill_md _ _)) in Hrun.
  fs_prim Hrun write_text_any Hacc.
  rewrite (bind_return _ _ _ _ _ (format_example_script _ _)) in Hrun.
  fs_prim Hrun write_text_any Hacc.
  rewrite (bind_return _ _ _ _ _ (format_example_reference _ _)) in Hrun.
  fs_prim Hrun write_text_any Hacc.
  fs_prim Hrun touch_any Hacc.
  destruct Hacc as (Hcwd & Hout & Herr & Hmono & Hkeep).
  unfold mbind, prog_bind, print in Hrun. cbn in Hrun.
  injection Hrun as <- <-. cbn [fs cwd stdout stderr].
  rewrite Hout, <- !app_assoc. done.
Qed.

(* ===================================================================== *)
(** * Further properties of the name check and the paths (X1, X2) *)
(* ===================================================================== *)

(** X1.  What [validate_skill_name] accepts, exactly: a non-empty string
    of ASCII letters, digits, hyphens and underscores, or such a string
    followed by one newline. *)
Theorem X1_accepted_names_exactly (name : string) :
  validate_skill_name name = true <->
  exists a, (a <> "" /\ Str.all skill_name_class a = true) /\
            (name = a \/ name = a +:+ String Str.nl "").
Proof.
  rewrite validate_skill_name_spec. split.
  - intros (a & Ha%well_formed_name_spec & Hn). eauto.
  - intros (a & Ha%well_formed_name_spec & Hn). eauto.
Qed.

(** X2.  An accepted name is one plain path component: it holds no [/],
    it is not [.] or [..], and [output_path / skill_name] keeps the anchor
    of the output path and adds the name as its last component, so the
    skill directory resolves to the entry of that name in the output
    directory. *)
Theorem X2_accepted_name_is_one_component
        (skill_name : string) (output_path : Path) :
  validate_skill_name skill_name = true ->
  Str.mem "/" skill_name = false /\
  skill_name <> "." /\ skill_name <> ".." /\
  output_path // skill_name
  = {| anchor := anchor output_path;
       parts := parts output_path ++ [skill_name] |} /\
  forall w k, Fs.resolve w output_path = inr k ->
              Fs.get (fs w) k = Some Dir ->
              Fs.resolve w (output_path // skill_name) = inr (k ++ [skill_name]).
Proof.
  intros Hacc. pose proof (accepted_plain _ Hacc) as Hplain.
  apply validate_skill_name_spec in Hacc
    as (a & [Ha Hall]%well_formed_name_spec & Hn).
  pose proof (all_mem_false _ "/"%char _ Hall class_not_sep) as Hsep.
  split.
  { destruct Hn as [-> | ->]; [done |]. by rewrite mem_append, Hsep. }
  split.
  { intros ->. destruct Hplain as [Hparse _]. discriminate Hparse. }
  split; [apply Hplain |].
  split; [by apply join_plain |].
  intros w k Hres Hdir. by apply resolve_join_dir.
Qed.

Lemma X2_accepted_name_witness :
  Str.mem "/" "my-skill" = false /\
  "my-skill" <> "." /\ "my-skill" <> ".." /\
  PurePath.parse "skills" // "my-skill"
  = {| anchor := anchor (PurePath.parse "skills");
       parts := parts (PurePath.parse "skills") ++ ["my-skill"] |} /\
  forall w k, Fs.resolve w (PurePath.parse "skills") = inr k ->
              Fs.get (fs w) k = Some Dir ->
              Fs.resolve w (PurePath.parse "skills" // "my-skill")
              = inr (k ++ ["my-skill"]).
Proof.
  apply (X2_accepted_name_is_one_component "my-skill" (PurePath.parse "skills")).
  reflexivity.
Defined.

(* ===================================================================== *)
(** * Further properties of the title (X3) *)
(* ===================================================================== *)










(* ===================================================================== *)
(** * How every run ends (X4, X5) *)
(* ===================================================================== *)



Lemma fs_step_extends (w w1 : world) : fs_step w w1 -> extends w w1.
Proof.
  intros (Hcwd & Hout & Herr & Hmono & Hkeep).
  repeat split; try done; [by rewrite Hout | by rewrite Herr].
Qed.

(** X5.  Whatever its arguments and however it ends, a run of [main]
    removes nothing: the working directory is the same, every directory
    is still a directory, every entry is still an entry, and both streams
    have only grown. *)
Theorem X5_main_removes_nothing
        (skill_name : string) (path : Path) (w w' : world) (r : outcome unit) :
  main skill_name path w = (r, w') ->
  cwd w' = cwd w /\
  (forall k, Fs.get (fs w) k = Some Dir -> Fs.get (fs w') k = Some Dir) /\
  (forall k, is_Some (Fs.get (fs w) k) -> is_Some (Fs.get (fs w') k)) /\
  stdout w `prefix_of` stdout w' /\ stderr w `prefix_of` stderr w'.
Proof.
  unfold main. destruct (validate_skill_name skill_name); cbn [negb].
  - intros Hrun%create_skill_directory_outcome.
    destruct r as [[]|status|e].
    + destruct Hrun as (Hcwd & Hout & Herr & Hmono & Hkeep).
      repeat split; try done; [rewrite Hout | by rewrite Herr].
      by apply prefix_app_r.
    + destruct Hrun as (_ & Hfs & Hcwd & Hout & Herr & _).
      rewrite Hfs, Hout, Herr. repeat split; try done. by apply prefix_app_r.
    + destruct Hrun as [_ Hstep]. by apply fs_step_extends in Hstep.
  - unfold mbind, prog_bind, print_stderr, sys_exit.
    intros [= <- <-]. cbn [fs cwd stdout stderr].
    repeat split; try done. by apply prefix_app_r.
Qed.

Lemma X5_main_removes_nothing_witness :
  let w' := (main "demo" (PurePath.parse "new/skills") server_world).2 in
  cwd w' = cwd server_world /\
  (forall k, Fs.get (fs server_world) k = Some Dir ->
             Fs.get (fs w') k = Some Dir) /\
  (forall k, is_Some (Fs.get (fs server_world) k) ->
             is_Some (Fs.get (fs w') k)) /\
  stdout server_world `prefix_of` stdout w' /\
  stderr server_world `prefix_of` stderr w'.
Proof.
  intros w'.
  apply (X5_main_removes_nothing "demo" (PurePath.parse "new/skills")
           server_world w' (Return tt)).
  vm_compute. reflexivity.
Defined.

(* ===================================================================== *)
(** * Runs whose end is known from the start (X6, X7, X8) *)
(* ===================================================================== *)

Lemma bind_raise {A B} (m : prog A) (f : A -> prog B) (w w' : world) (e : exn) :
  m w = (Raise e, w') -> (m ≫= f) w = (Raise e, w').
Proof. intros H. unfold mbind, prog_bind. by rewrite H. Qed.

(** [mkdir] gives up at once on a path that runs through a regular
    file. *)
Lemma mkdir_parents_rev_through_file (a : string) (rp : list string)
      (exist_ok : bool) (w : world) :
  Fs.resolve w {| anchor := a; parts := rev rp |} = inl NotADirectoryError ->
  Fs.mkdir_parents_rev a rp exist_ok w = (Raise NotADirectoryError, w).
Proof.
  intros Hres. destruct rp; cbn [Fs.mkdir_parents_rev];
    unfold Fs.os_mkdir, Fs.is_dir; by rewrite Hres.
Qed.



(** X7.  A run of [main] that returned cannot be repeated: with the same
    arguments, in the world it left, [main] finds the skill directory,
    prints the message about the existing directory on the standard error
    and exits with status 1, changing nothing else. *)
Theorem X7_second_run_exits
        (skill_name : string) (path : Path) (w w' : world) :
  main skill_name path w = (Return tt, w') ->
  main skill_name path w'
  = (SysExit 1,
     {| fs := fs w'; cwd := cwd w'; stdout := stdout w';
        stderr := stderr w' ++ [already_exists_message (path // skill_name)] |}).
Proof.
  unfold main. destruct (validate_skill_name skill_name) eqn:Hacc; cbn [negb].
  - intros Hrun.
    destruct (create_skill_directory_returns _ _ _ _ (accepted_plain _ Hacc) Hrun)
      as (k & Hres & Hk & _).
    unfold create_skill_directory.
    erewrite bind_return; cycle 1.
    { unfold Fs.path_exists. rewrite Hres, Hk. reflexivity. }
    reflexivity.
  - unfold mbind, prog_bind, print_stderr, sys_exit. discriminate.
Qed.

Lemma X7_second_run_witness :
  main "demo" here demo_world
  = (SysExit 1,
     {| fs := fs demo_world; cwd := cwd demo_world; stdout := stdout demo_world;
        stderr := stderr demo_world
                  ++ [already_exists_message (here // "demo")] |}).
Proof.
  apply (X7_second_run_exits "demo" here home_world demo_world).
  vm_compute. reflexivity.
Defined.

(** X8.  When the output path is a regular file, or runs through one,
    [main] with an accepted name raises [NotADirectoryError] from the
    first [mkdir] and leaves the world as it was: nothing is made and
    nothing is printed. *)
Theorem X8_output_path_through_a_file
        (skill_name : string) (path : Path) (w : world) :
  validate_skill_name skill_name = true ->
  (Fs.resolve w path = inl NotADirectoryError \/
   exists k content, Fs.resolve w path = inr k /\
                     Fs.get (fs w) k = Some (File content)) ->
  main skill_name path w = (Raise NotADirectoryError, w).
Proof.
  intros Hacc Hfile. pose proof (accepted_plain _ Hacc) as Hplain.
  assert (Fs.resolve w (path // skill_name) = inl NotADirectoryError) as Hsd.
  { rewrite (resolve_join _ _ _ Hplain).
    destruct Hfile as [-> | (k & c & -> & ->)]; done. }
  unfold main. rewrite Hacc. cbn [negb]. unfold create_skill_directory.
  erewrite bind_return; cycle 1.
  { unfold Fs.path_exists. rewrite Hsd. reflexivity. }
  cbn match. apply bind_raise. unfold Fs.mkdir.
  apply mkdir_parents_rev_through_file.
  rewrite rev_involutive, path_eta.
  by rewrite (resolve_join _ _ _ plain_scripts), Hsd.
Qed.

Lemma X8_output_path_through_a_file_witness :
  main "demo" (PurePath.parse "notes.txt") server_world
  = (Raise NotADirectoryError, server_world).
Proof.
  apply (X8_output_path_through_a_file "demo" (PurePath.parse "notes.txt")
           server_world).
  - reflexivity.
  - right. exists ["srv"; "notes.txt"], "keep". split; vm_compute; reflexivity.
Defined.

(* ===================================================================== *)
(** * Properties: making the missing directories *)
(* ===================================================================== *)







(* ===================================================================== *)
(** * Scaffolding below directories that are not there yet (X9) *)
(* ===================================================================== *)



(* ===================================================================== *)
(** * What a run that returned has made (X10) *)
(* ===================================================================== *)

(** X10.  Whatever the output path and the file system, a run of [main]
    that returns leaves at [path / skill_name] a directory with the three
    subdirectories and the four files, each template file holding its
    rendered text; the manifest can be read back, and its second line is
    [name:] with the skill name exactly when the name does not end in a
    newline. *)
Theorem X10_returned_run_leaves_the_skill
        (skill_name : string) (path : Path) (w w' : world) :
  main skill_name path w = (Return tt, w') ->
  exists k,
    Fs.resolve w' (path // skill_name) = inr k /\
    skill_directory_at skill_name (fs w') k /\
    FsExtra.read_file w' (path // skill_name // "SKILL.md")
    = Some (skill_md_text skill_name) /\
    (manifest_shape (skill_md_text skill_name) skill_name <->
     Str.mem Str.nl skill_name = false).
Proof.
  unfold main. destruct (validate_skill_name skill_name) eqn:Hacc; cbn [negb].
  - intros Hrun. pose proof (accepted_plain _ Hacc) as Hplain.
    destruct (create_skill_directory_returns _ _ _ _ Hplain Hrun)
      as (k & Hres & Hat).
    exists k. split; [done |]. split; [done |]. split.
    + exact (read_scaffolded_manifest _ _ _ _ Hplain Hrun).
    + rewrite (manifest_shape_iff _ Hacc). split.
      * apply well_formed_no_newline.
      * by apply accepted_without_newline.
  - unfold mbind, prog_bind, print_stderr, sys_exit. discriminate.
Qed.

Lemma X10_returned_run_witness :
  exists k,
    Fs.resolve demo_world (here // "demo") = inr k /\
    skill_directory_at "demo" (fs demo_world) k /\
    FsExtra.read_file demo_world (here // "demo" // "SKILL.md")
    = Some (skill_md_text "demo") /\
    (manifest_shape (skill_md_text "demo") "demo" <->
     Str.mem Str.nl "demo" = false).
Proof.
  apply (X10_returned_run_leaves_the_skill "demo" here home_world demo_world).
  vm_compute. reflexivity.
Defined.

(* ===================================================================== *)
(** * Names that are turned away (X11) *)
(* ===================================================================== *)

(** X11.  The empty name, and every name that holds a character other
    than a letter, a digit, a hyphen, an underscore or a newline, is turned
    away before anything is looked up or made: [main] prints the message
    about the name on the standard error and exits with status 1, and the
    file system and the standard output are as they were. *)
Theorem X11_foreign_character_is_rejected
        (skill_name : string) (path : Path) (w : world) :
  (skill_name = "" \/
   exists c, Str.mem c skill_name = true /\ skill_name_class c = false /\
             c <> Str.nl) ->
  validate_skill_name skill_name = false /\
  main skill_name path w
  = (SysExit 1,
     {| fs := fs w; cwd := cwd w; stdout := stdout w;
        stderr := stderr w ++ [invalid_name_message skill_name] |}).
Proof.
  intros Hbad.
  assert (validate_skill_name skill_name = false) as Hrej.
  { destruct (validate_skill_name skill_name) eqn:Hacc; [exfalso | done].
    apply validate_skill_name_spec in Hacc
      as (a & [Ha Hall]%well_formed_name_spec & Hn).
    destruct Hbad as [-> | (c & Hmem & Hc & Hnl)].
    - destruct Hn as [<- | Hn]; [done |]. by destruct a.
    - pose proof (all_mem_false _ c _ Hall Hc) as Hout.
      destruct Hn as [-> | ->]; [congruence |].
      rewrite mem_append, Hout in Hmem. cbn [Str.mem orb] in Hmem.
      rewrite orb_false_r in Hmem. by apply Ascii.eqb_eq in Hmem. }
  split; [done |]. unfold main. by rewrite Hrej.
Qed.

Lemma X11_foreign_character_witness :
  validate_skill_name "../etc" = false /\
  main "../etc" here home_world
  = (SysExit 1,
     {| fs := fs home_world; cwd := cwd home_world; stdout := stdout home_world;
        stderr := stderr home_world ++ [invalid_name_message "../etc"] |}).
Proof.
  apply (X11_foreign_character_is_rejected "../etc" here home_world).
  right. exists "/"%char. repeat split; [reflexivity .. | discriminate].
Defined.

(* ===================================================================== *)
(** * How the skill directory is printed (X12) *)
(* ===================================================================== *)

Lemma append_assoc3 (a b c : string) : (a +:+ b) +:+ c = a +:+ (b +:+ c).
Proof.
  induction a as [|x a IH]; [by rewrite !append_nil_l |].
  by rewrite !append_cons, IH.
Qed.

Lemma join_sep_snoc (x : string) (l : list string) (n : string) :
  PurePath.join_sep (x :: l ++ [n])
  = PurePath.join_sep (x :: l) +:+ "/" +:+ n.
Proof.
  revert x. induction l as [|y l IH]; intros x; [done |].
  change (PurePath.join_sep (x :: (y :: l) ++ [n]))
    with (x +:+ "/" +:+ PurePath.join_sep (y :: l ++ [n])).
  change (PurePath.join_sep (x :: y :: l))
    with (x +:+ "/" +:+ PurePath.join_sep (y :: l)).
  by rewrite IH, !append_assoc3.
Qed.

(** X12.  In every message the skill directory of an accepted name is
    written as the output path, a slash and the name; when the output
    path has no component it is the anchor of the output path and the
    name, so the bare name for the current directory.  The first of the
    closing lines and the message about an existing directory name it
    that way. *)
Theorem X12_skill_directory_as_printed (skill_name : string) (path : Path) :
  validate_skill_name skill_name = true ->
  let shown :=
    match parts path with
    | [] => anchor path +:+ skill_name
    | _ => PurePath.to_str path +:+ "/" +:+ skill_name
    end in
  PurePath.to_str (path // skill_name) = shown /\
  head (next_steps (path // skill_name))
  = Some ("Created skill directory: " +:+ shown) /\
  already_exists_message (path // skill_name)
  = "Error: Directory '" +:+ shown +:+ "' already exists.".
Proof.
  intros Hacc shown.
  assert (PurePath.to_str (path // skill_name) = shown) as Hshown.
  { subst shown. rewrite (join_plain _ _ (accepted_plain _ Hacc)).
    unfold PurePath.to_str. cbn [anchor parts].
    destruct (parts path) as [|x l].
    - cbn [app PurePath.join_sep]. by destruct (anchor path).
    - destruct (anchor path) as [|a0 a]; cbn [app]; rewrite join_sep_snoc.
      + by rewrite !append_nil_l.
      + by rewrite !append_assoc3. }
  unfold already_exists_message, next_steps. cbn [head]. by rewrite Hshown.
Qed.

Lemma X12_skill_directory_witness :
  let shown :=
    match parts (PurePath.parse "/srv/skills/") with
    | [] => anchor (PurePath.parse "/srv/skills/") +:+ "demo"
    | _ => PurePath.to_str (PurePath.parse "/srv/skills/") +:+ "/" +:+ "demo"
    end in
  PurePath.to_str (PurePath.parse "/srv/skills/" // "demo") = shown /\
  head (next_steps (PurePath.parse "/srv/skills/" // "demo"))
  = Some ("Created skill directory: " +:+ shown) /\
  already_exists_message (PurePath.parse "/srv/skills/" // "demo")
  = "Error: Directory '" +:+ shown +:+ "' already exists.".
Proof.
  apply (X12_skill_directory_as_printed "demo" (PurePath.parse "/srv/skills/")).
  reflexivity.
Defined.

(* ===================================================================== *)
(** * Two skills in one directory (X13) *)
(* ===================================================================== *)




